(** * Keyboard zoom accessibility component (ZoomComponent.js)

    A shallow embedding of [js/modules/accessibility/components/ZoomComponent.js]
    and the properties its design document states about it.

    Conventions of the embedding:
    - [panStep] is given in two readings of one text ([panStepOver]): in
      the arithmetic of the source, IEEE-754 binary64 ([Binary64.panStep],
      on [float]), and in exact arithmetic ([AxisPanner.panStep], on [Q]
      with [Qeq], [==]).  What is said of the values [panStep] computes is
      said of the binary64 reading; the exact reading carries the chart
      model, where only the choice of axis, direction and granularity
      matters, and the statements that rounding does not touch.
    - An optional argument is an [option]; [None] is JavaScript's [undefined].
    - Code that can throw a [TypeError] (a property read on [undefined])
      returns [None] in the error monad [M] below. *)

From Stdlib Require Import QArith Lqa Floats.
From stdpp Require Import gmap strings list fin_maps.

Local Open Scope Q_scope.

(** * 1. Axis panning *)

Module AxisPanner.

(** The object returned by [axis.getExtremes()]; only the four fields
    [panStep] reads. *)
Record Extremes := mkExtremes {
  min : Q;
  max : Q;
  dataMin : Q;
  dataMax : Q
}.

(** [a < b] on numbers, as a boolean. *)
Definition Qltb (a b : Q) : bool := negb (Qle_bool b a).

(** [granularity || 3]: [undefined] and [0] are falsy. *)
Definition gran (granularity : option Q) : Q :=
  match granularity with
  | Some g => if Qeq_bool g 0 then 3 else g
  | None => 3
  end.

(** [step = (extremes.max - extremes.min) / gran * direction] *)
Definition step (extremes : Extremes) (direction : Q) (granularity : option Q) : Q :=
  (max extremes - min extremes) / gran granularity * direction.

(** [H.Axis.prototype.panStep]: the pair [(newMin, newMax)] handed to
    [this.setExtremes]. *)
Definition panStep (extremes : Extremes) (direction : Q) (granularity : option Q)
  : Q * Q :=
  let gran := gran granularity in
  let step := (max extremes - min extremes) / gran * direction in
  let newMax := max extremes + step in
  let newMin := min extremes + step in
  let size := newMax - newMin in
  if Qltb direction 0 && Qltb newMin (dataMin extremes) then
    let newMin := dataMin extremes in
    let newMax := newMin + size in
    (newMin, newMax)
  else if Qltb 0 direction && Qltb (dataMax extremes) newMax then
    let newMax := dataMax extremes in
    let newMin := newMax - size in
    (newMin, newMax)
  else (newMin, newMax).

(** The guard of the first branch of [panStep]. *)
Definition clampsLow (extremes : Extremes) (direction : Q) (granularity : option Q) : bool :=
  Qltb direction 0 &&
  Qltb (min extremes + step extremes direction granularity) (dataMin extremes).

(** The guard of the second branch of [panStep]. *)
Definition clampsHigh (extremes : Extremes) (direction : Q) (granularity : option Q) : bool :=
  Qltb 0 direction &&
  Qltb (dataMax extremes) (max extremes + step extremes direction granularity).

(** No clamping occurred: neither guard fired. *)
Definition noClamp (extremes : Extremes) (direction : Q) (granularity : option Q) : bool :=
  negb (clampsLow extremes direction granularity) &&
  negb (clampsHigh extremes direction granularity).

(** The window size of a pair of extremes. *)
Definition windowSize (p : Q * Q) : Q := snd p - fst p.

End AxisPanner.

(** * 1a. Axis panning in binary64

    The same method on JavaScript's own numbers: IEEE-754 binary64 values
    with round-to-nearest operations, [NaN] and the infinities ([float]).
    This is the arithmetic the source runs; section 1 reads the same
    expressions in exact arithmetic. *)

Module Binary64.

(** The object returned by [axis.getExtremes()]. *)
Record Extremes := mkExtremes {
  min : float;
  max : float;
  dataMin : float;
  dataMax : float
}.

(** The falsy numbers: [0], [-0] and [NaN]. *)
Definition falsy (x : float) : bool := is_zero x || is_nan x.

(** [granularity || 3] *)
Definition gran (granularity : option float) : float :=
  match granularity with
  | Some g => if falsy g then 3%float else g
  | None => 3%float
  end.

(** [H.Axis.prototype.panStep]: the pair [(newMin, newMax)] handed to
    [this.setExtremes]. *)
Definition panStep (extremes : Extremes) (direction : float)
    (granularity : option float) : float * float :=
  let gran := gran granularity in
  let step := ((max extremes - min extremes) / gran * direction)%float in
  let newMax := (max extremes + step)%float in
  let newMin := (min extremes + step)%float in
  let size := (newMax - newMin)%float in
  if (direction <? 0)%float && (newMin <? dataMin extremes)%float then
    let newMin := dataMin extremes in
    let newMax := (newMin + size)%float in
    (newMin, newMax)
  else if (0 <? direction)%float && (dataMax extremes <? newMax)%float then
    let newMax := dataMax extremes in
    let newMin := (newMax - size)%float in
    (newMin, newMax)
  else (newMin, newMax).

(** The local variables [step] and [size] of [panStep]. *)
Definition step (extremes : Extremes) (direction : float)
    (granularity : option float) : float :=
  ((max extremes - min extremes) / gran granularity * direction)%float.

Definition size (extremes : Extremes) (direction : float)
    (granularity : option float) : float :=
  ((max extremes + step extremes direction granularity)
   - (min extremes + step extremes direction granularity))%float.

(** The guards of its two clamping branches. *)
Definition clampsLow (extremes : Extremes) (direction : float)
    (granularity : option float) : bool :=
  (direction <? 0)%float &&
  (min extremes + step extremes direction granularity <? dataMin extremes)%float.

Definition clampsHigh (extremes : Extremes) (direction : float)
    (granularity : option float) : bool :=
  (0 <? direction)%float &&
  (dataMax extremes <? max extremes + step extremes direction granularity)%float.

End Binary64.

(** The text of [panStep] over any arithmetic: sections 1 and 1a are its
    two readings. *)
Section PanStepOver.

Context {N : Type}.
Variables (add sub mul div : N -> N -> N) (ltb : N -> N -> bool).
Variables (zero three : N) (falsy : N -> bool).

Definition panStepOver (min max dataMin dataMax : N) (direction : N)
    (granularity : option N) : N * N :=
  let gran := match granularity with
              | Some g => if falsy g then three else g
              | None => three
              end in
  let step := mul (div (sub max min) gran) direction in
  let newMax := add max step in
  let newMin := add min step in
  let size := sub newMax newMin in
  if ltb direction zero && ltb newMin dataMin then
    let newMin := dataMin in
    let newMax := add newMin size in
    (newMin, newMax)
  else if ltb zero direction && ltb dataMax newMax then
    let newMax := dataMax in
    let newMin := sub newMax size in
    (newMin, newMax)
  else (newMin, newMax).

End PanStepOver.

Import AxisPanner.

(** * 2. The chart, the component and the document *)

(** Identity of a DOM or SVG element. *)
Abbreviation ElemId := nat.

(** A rendered button of the chart ([chart.resetZoomButton],
    [chart.drillUpButton], an entry of [chart.mapNavButtons]). *)
Record Button := mkButton {
  element : ElemId;        (* button.element *)
  box : option ElemId;     (* button.box *)
  state : Z                (* last argument of button.setState *)
}.

(** The fields of the chart the component reads.  [mapZoom] says whether
    the method [chart.mapZoom] is defined. *)
Record Chart := mkChart {
  mapZoom : bool;
  mapNavButtons : option (list Button);
  resetZoomButton : option Button;
  drillUpButton : option Button;
  xAxis : list Extremes;
  yAxis : list Extremes;
  langFormat : string -> option string -> string;
  getDrilldownBackText : string
}.

(** The component's own properties: the four proxy properties, read and
    written by name ([this[groupProp]]), and the focused map button. *)
Record Component := mkComponent {
  props : gmap string ElemId;
  focusedMapNavButtonIx : option Z
}.

(** A proxy button inside a proxy group. *)
Record ProxyButton := mkProxyButton {
  pb_element : ElemId;
  pb_target : Button;
  pb_label : string;
  pb_tabindex : Z
}.

(** The proxy groups attached to the document, with their buttons, and the
    identity the next created element gets. *)
Record Dom := mkDom {
  nextId : ElemId;
  groups : gmap ElemId (list ProxyButton)
}.

(** The closure [function () { component.updateProxyOverlays(); }]. *)
Inductive Callback := CallUpdateProxyOverlays.

(** Calls that leave the component, in the order they are made. *)
Inductive Effect :=
| ERemoveElement (el : option ElemId)
| EAddProxyGroup (g : ElemId)
| ECreateProxyButton (target : Button) (group : option ElemId) (label : string) (b : ElemId)
| ESetExtremes (axis : string) (newMin newMax : Q)
| ESetState (ix : Z) (s : Z)
| ESetFocusToElement (bx : option ElemId) (el : ElemId)
| EMapZoom
| EFakeClickEvent (el : ElemId)
| EAddEvent (eventType : string).

Record World := mkWorld {
  chart : Chart;
  component : Component;
  document : Dom;
  listeners : list (string * Callback);
  log : list Effect
}.

(** [keyboardNavigationHandler.response] *)
Inductive Response := success | prev | next.

(** [this.keyCodes] *)
Record KeyCodes := mkKeyCodes {
  up : Z; down : Z; left : Z; right : Z; tab : Z; space : Z; enter : Z
}.

(** The JavaScript values a [validate] function of this file can return. *)
Inductive JsVal :=
| JUndefined
| JNumber (n : Z)
| JObject.      (* a function, an array or an element *)

Definition truthy (v : JsVal) : bool :=
  match v with
  | JUndefined => false
  | JNumber n => negb (n =? 0)%Z
  | JObject => true
  end.

(** [a && b]; [b] is evaluated only when [a] is truthy, and may throw. *)
Definition js_and (a : option JsVal) (b : unit -> option JsVal) : option JsVal :=
  match a with
  | None => None
  | Some v => if truthy v then b tt else Some v
  end.

(** [o.length], which throws when [o] is [undefined]. *)
Definition js_length {A} (o : option (list A)) : option JsVal :=
  match o with
  | Some l => Some (JNumber (Z.of_nat (length l)))
  | None => None
  end.

Definition js_of_option {A} (o : option A) : JsVal :=
  match o with Some _ => JObject | None => JUndefined end.

(** ** The state and error monad *)

Definition M (A : Type) : Type := World -> option (A * World).

#[global] Instance M_ret : MRet M := fun A x w => Some (x, w).
#[global] Instance M_bind : MBind M := fun A B f m w =>
  match m w with
  | Some (x, w') => f x w'
  | None => None
  end.

(** A [TypeError]. *)
Definition throw {A} : M A := fun _ => None.

Definition getChart : M Chart := fun w => Some (chart w, w).
Definition getComponent : M Component := fun w => Some (component w, w).

Definition putChart (c : Chart) : M unit := fun w =>
  Some (tt, mkWorld c (component w) (document w) (listeners w) (log w)).
Definition putComponent (c : Component) : M unit := fun w =>
  Some (tt, mkWorld (chart w) c (document w) (listeners w) (log w)).
Definition putDom (d : Dom) : M unit := fun w =>
  Some (tt, mkWorld (chart w) (component w) d (listeners w) (log w)).
Definition emit (e : Effect) : M unit := fun w =>
  Some (tt, mkWorld (chart w) (component w) (document w) (listeners w) (log w ++ [e])).

(** [list.forEach(f)] *)
Fixpoint forEach {A} (l : list A) (f : A -> M unit) : M unit :=
  match l with
  | [] => mret tt
  | x :: l' => f x;; forEach l' f
  end.

(** [a[i]] on an array: [undefined] outside [0 .. length - 1]. *)
Definition nthZ {A} (l : list A) (i : Z) : option A :=
  if (i <? 0)%Z then None else l !! Z.to_nat i.

(** * 3. Inherited helpers and chart methods

    [removeElement], [addProxyGroup], [createProxyButton] and [addEvent]
    come from [AccessibilityComponent.js]; [setExtremes], [setState],
    [setFocusToElement] and [mapZoom] are methods of the chart's objects.
    Neither is part of the component's file. *)

(** The attached groups without the group [el] refers to, if any. *)
Definition removeGroup (el : option ElemId)
    (gs : gmap ElemId (list ProxyButton)) : gmap ElemId (list ProxyButton) :=
  match el with
  | Some g => delete g gs
  | None => gs
  end.

(** Modelled from the spec: [removeElement] of AccessibilityComponent.js
    is missing; "removes a ProxyGroup and all its ProxyButtons if present;
    no-op if the group reference is absent", safe on a group that was
    already removed.  The property holding the reference is not cleared. *)
Definition removeElement (el : option ElemId) : M unit := fun w =>
  let d := document w in
  (putDom (mkDom (nextId d) (removeGroup el (groups d)));;
   emit (ERemoveElement el)) w.

(** Modelled from the spec: [addProxyGroup] of AccessibilityComponent.js
    is missing; it "creates a new ProxyGroup", attached and empty. *)
Definition addProxyGroup : M ElemId := fun w =>
  let d := document w in
  let g := nextId d in
  (putDom (mkDom (S g) (<[g := []]> (groups d)));;
   emit (EAddProxyGroup g);;
   mret g) w.

(** Modelled from the spec: [createProxyButton] of
    AccessibilityComponent.js is missing; it "creates one ProxyButton
    inside" the group, for the target element, with the attributes given
    (here [aria-label] and [tabindex]). *)
Definition createProxyButton (buttonEl : Button) (group : option ElemId)
    (label : string) (tabindex : Z) : M ElemId := fun w =>
  let d := document w in
  let b := nextId d in
  let pb := mkProxyButton b buttonEl label tabindex in
  let gs := match group with
            | Some g => alter (fun bs => bs ++ [pb]) g (groups d)
            | None => groups d
            end in
  (putDom (mkDom (S b) gs);;
   emit (ECreateProxyButton buttonEl group label b);;
   mret b) w.

(** Modelled from the spec: [addEvent] of AccessibilityComponent.js is
    missing; it subscribes the callback to the chart event. *)
Definition addEvent (eventType : string) (cb : Callback) : M unit := fun w =>
  emit (EAddEvent eventType)
    (mkWorld (chart w) (component w) (document w)
       (listeners w ++ [(eventType, cb)]) (log w)).

(** [this[prop] = v] *)
Definition setProp (prop : string) (v : ElemId) : M unit :=
  c ← getComponent;
  putComponent (mkComponent (<[prop := v]> (props c)) (focusedMapNavButtonIx c)).

(** [this.focusedMapNavButtonIx = v] *)
Definition setFocusedMapNavButtonIx (v : option Z) : M unit :=
  c ← getComponent;
  putComponent (mkComponent (props c) v).

(** [chart[panAxis]] *)
Definition axisCollection (c : Chart) (panAxis : string) : option (list Extremes) :=
  if String.eqb panAxis "yAxis" then Some (yAxis c)
  else if String.eqb panAxis "xAxis" then Some (xAxis c)
  else None.

Definition withAxisCollection (c : Chart) (panAxis : string) (l : list Extremes) : Chart :=
  if String.eqb panAxis "yAxis" then
    mkChart (mapZoom c) (mapNavButtons c) (resetZoomButton c) (drillUpButton c)
      (xAxis c) l (langFormat c) (getDrilldownBackText c)
  else if String.eqb panAxis "xAxis" then
    mkChart (mapZoom c) (mapNavButtons c) (resetZoomButton c) (drillUpButton c)
      l (yAxis c) (langFormat c) (getDrilldownBackText c)
  else c.

(** Modelled from the spec: [axis.setExtremes(newMin, newMax)] is a chart
    method; it writes the axis's [min] and [max] ("Axis extremes
    read/write"), the data bounds stay. *)
Definition setExtremes (panAxis : string) (i : nat) (newMin newMax : Q) : M unit :=
  c ← getChart;
  match axisCollection c panAxis with
  | Some l =>
      match l !! i with
      | Some e =>
          putChart (withAxisCollection c panAxis
                      (<[i := mkExtremes newMin newMax (dataMin e) (dataMax e)]> l));;
          emit (ESetExtremes panAxis newMin newMax)
      | None => throw
      end
  | None => throw
  end.

(** [chart[panAxis][i].panStep(direction, granularity)]: [panStep] of
    section 1 on the extremes read from the axis, then [setExtremes]. *)
Definition axisPanStep (panAxis : string) (i : nat) (direction : Q)
    (granularity : option Q) : M unit :=
  c ← getChart;
  match axisCollection c panAxis with
  | Some l =>
      match l !! i with
      | Some extremes =>
          let r := panStep extremes direction granularity in
          setExtremes panAxis i (fst r) (snd r)
      | None => throw
      end
  | None => throw
  end.

Definition withState (b : Button) (s : Z) : Button :=
  mkButton (element b) (box b) s.

Definition withMapNavButtons (c : Chart) (l : list Button) : Chart :=
  mkChart (mapZoom c) (Some l) (resetZoomButton c) (drillUpButton c)
    (xAxis c) (yAxis c) (langFormat c) (getDrilldownBackText c).

(** [chart.mapNavButtons[ix]] as an expression whose properties are read
    next: a [TypeError] when the array or the entry is [undefined]. *)
Definition mapNavButton (ix : option Z) : M Button :=
  c ← getChart;
  match mapNavButtons c, ix with
  | Some l, Some i =>
      match nthZ l i with
      | Some b => mret b
      | None => throw
      end
  | _, _ => throw
  end.

(** [chart.mapNavButtons[ix].setState(s)]; the button keeps the state. *)
Definition setStateAt (ix : option Z) (s : Z) : M unit :=
  b ← mapNavButton ix;
  c ← getChart;
  match mapNavButtons c, ix with
  | Some l, Some i =>
      putChart (withMapNavButtons c (<[Z.to_nat i := withState b s]> l));;
      emit (ESetState i s)
  | _, _ => throw
  end.

(** [chart.setFocusToElement(box, element)] *)
Definition setFocusToElement (bx : option ElemId) (el : ElemId) : M unit :=
  emit (ESetFocusToElement bx el).

(** [chart.mapZoom()]: a [TypeError] when the chart has no such method. *)
Definition callMapZoom : M unit :=
  c ← getChart;
  if mapZoom c then emit EMapZoom else throw.

(** * 4. The component *)

(** [chartHasMapZoom(chart)]: the value of the [&&] chain. *)
Definition chartHasMapZoom (chart : Chart) : option JsVal :=
  js_and (Some (if mapZoom chart then JObject else JUndefined)) (fun _ =>
  js_and (Some (js_of_option (mapNavButtons chart))) (fun _ =>
  js_length (mapNavButtons chart))).

(** [ZoomComponent.prototype.recreateProxyButtonAndGroup] *)
Definition recreateProxyButtonAndGroup (buttonEl : Button)
    (buttonProp groupProp label : string) : M unit :=
  c ← getComponent;
  removeElement (props c !! groupProp);;
  g ← addProxyGroup;
  setProp groupProp g;;
  c ← getComponent;
  b ← createProxyButton buttonEl (props c !! groupProp) label (-1);
  setProp buttonProp b.

(** [ZoomComponent.prototype.updateProxyOverlays] *)
Definition updateProxyOverlays : M unit :=
  chart ← getChart;
  c ← getComponent;
  removeElement (props c !! "drillUpProxyGroup");;
  c ← getComponent;
  removeElement (props c !! "resetZoomProxyGroup");;
  match resetZoomButton chart with
  | Some button =>
      recreateProxyButtonAndGroup button "resetZoomProxyButton"
        "resetZoomProxyGroup"
        (langFormat chart "accessibility.zoom.resetZoomButton" None)
  | None => mret tt
  end;;
  match drillUpButton chart with
  | Some button =>
      recreateProxyButtonAndGroup button "drillUpProxyButton"
        "drillUpProxyGroup"
        (langFormat chart "accessibility.drillUpButton"
           (Some (getDrilldownBackText chart)))
  | None => mret tt
  end.

(** [ZoomComponent.prototype.onChartRender] *)
Definition onChartRender : M unit := updateProxyOverlays.

(** The body of a subscribed callback. *)
Definition runCallback (cb : Callback) : M unit :=
  match cb with
  | CallUpdateProxyOverlays => updateProxyOverlays
  end.

(** The event types [init] walks over. *)
Definition initEventTypes : list string :=
  ["afterShowResetZoom"; "afterDrilldown"; "drillupall"].

(** [ZoomComponent.prototype.init] *)
Definition init : M unit :=
  forEach initEventTypes (fun eventType =>
    addEvent eventType CallUpdateProxyOverlays).

(** Modelled from the spec: firing a chart event is the work of
    [Highcharts.fireEvent], which is missing; the callbacks subscribed to
    the event type run in subscription order. *)
Fixpoint runListeners (ls : list (string * Callback)) (eventType : string) : M unit :=
  match ls with
  | [] => mret tt
  | (t, cb) :: ls' =>
      (if String.eqb t eventType then runCallback cb else mret tt);;
      runListeners ls' eventType
  end.

Definition fireEvent (eventType : string) : M unit := fun w =>
  runListeners (listeners w) eventType w.

(** [ZoomComponent.prototype.onMapKbdArrow]; the handler argument is only
    read for its [response] table. *)
Definition onMapKbdArrow (keys : KeyCodes) (keyCode : Z) : M Response :=
  let panAxis :=
    if (keyCode =? up keys)%Z || (keyCode =? down keys)%Z
    then "yAxis" else "xAxis" in
  let stepDirection : Q :=
    if (keyCode =? left keys)%Z || (keyCode =? up keys)%Z
    then -1 else 1 in
  axisPanStep panAxis 0 stepDirection None;;
  mret success.

(** Truthiness of [this.focusedMapNavButtonIx]. *)
Definition truthyIx (ix : option Z) : bool :=
  match ix with
  | Some i => negb (i =? 0)%Z
  | None => false
  end.

(** [ZoomComponent.prototype.onMapKbdTab]; [shiftKey] is [event.shiftKey]. *)
Definition onMapKbdTab (shiftKey : bool) : M Response :=
  c ← getComponent;
  let isBackwards := shiftKey in
  let isMoveOutOfRange :=
    isBackwards && negb (truthyIx (focusedMapNavButtonIx c)) ||
    negb isBackwards && truthyIx (focusedMapNavButtonIx c) in
  (* Deselect old *)
  setStateAt (focusedMapNavButtonIx c) 0;;
  if isMoveOutOfRange then
    callMapZoom;; (* Reset zoom *)
    mret (if isBackwards then prev else next)
  else
    (* Select other button *)
    setFocusedMapNavButtonIx
      ((fun i => i + (if isBackwards then -1 else 1))%Z <$> focusedMapNavButtonIx c);;
    c ← getComponent;
    button ← mapNavButton (focusedMapNavButtonIx c);
    setFocusToElement (box button) (element button);;
    setStateAt (focusedMapNavButtonIx c) 2;;
    mret success.

(** [ZoomComponent.prototype.onMapNavInit] *)
Definition onMapNavInit (direction : Z) : M unit :=
  let ix := if (0 <? direction)%Z then 0%Z else 1%Z in
  initialButton ← mapNavButton (Some ix);
  setFocusToElement (box initialButton) (element initialButton);;
  setStateAt (Some ix) 2;;
  setFocusedMapNavButtonIx (Some ix).

(** [validate] of the handler [getMapZoomNavigation] returns. *)
Definition mapZoomValidate (w : World) : option JsVal :=
  chartHasMapZoom (chart w).

(** [chart[buttonProp]] for the two simple buttons. *)
Definition chartButton (c : Chart) (buttonProp : string) : option Button :=
  if String.eqb buttonProp "resetZoomButton" then resetZoomButton c
  else if String.eqb buttonProp "drillUpButton" then drillUpButton c
  else None.

(** [validate] of the handler [simpleButtonNavigation] returns:
    [chart[buttonProp] && chart[buttonProp].box && component[proxyProp]]. *)
Definition simpleButtonValidate (buttonProp proxyProp : string) (w : World)
  : option JsVal :=
  js_and (Some (js_of_option (chartButton (chart w) buttonProp))) (fun _ =>
  js_and (match chartButton (chart w) buttonProp with
          | Some b => Some (js_of_option (box b))
          | None => None
          end) (fun _ =>
  Some (js_of_option (props (component w) !! proxyProp)))).

(** Running a program: its final world and its result. *)
Definition exec {A} (m : M A) (w : World) : option World := snd <$> m w.
Definition eval {A} (m : M A) (w : World) : option A := fst <$> m w.

(** * 5. Vocabulary of the properties

    Definitions the statements below use; none of them is part of the
    program. *)

(** The world after [chart[panAxis][0]] was panned in direction [d] from
    the extremes [e], with the default granularity. *)
Definition panned (w : World) (panAxis : string) (e : Extremes) (d : Q) : World :=
  let r := panStep e d (Some 3) in
  mkWorld
    (withAxisCollection (chart w) panAxis
       (<[0%nat := mkExtremes (fst r) (snd r) (dataMin e) (dataMax e)]>
          (default [] (axisCollection (chart w) panAxis))))
    (component w) (document w) (listeners w)
    (log w ++ [ESetExtremes panAxis (fst r) (snd r)]).


(** A button is visually selected in state 2. *)
Definition selected (b : Button) : bool := (state b =? 2)%Z.

(** Every element a property of the component refers to was created
    before the element the document creates next. *)
Definition propsAllocated (w : World) : bool :=
  bool_decide (map_Forall (fun _ g => g < nextId (document w))%nat
                 (props (component w))).

(** What a proxy button stands for: its target, label and tabindex. *)
Definition proxyView (pb : ProxyButton) : Button * string * Z :=
  (pb_target pb, pb_label pb, pb_tabindex pb).

(** The buttons of the group a group property refers to, when that group
    is attached to the document. *)
Definition proxyGroupContent (w : World) (groupProp : string)
  : option (list ProxyButton) :=
  match props (component w) !! groupProp with
  | Some g => groups (document w) !! g
  | None => None
  end.

(** The calls one recreation makes, when the chart has the button. *)
Definition recreateEffects (old : option ElemId) (n : ElemId)
    (button : option Button) (label : string) : list Effect :=
  match button with
  | Some b => [ERemoveElement old; EAddProxyGroup n;
               ECreateProxyButton b (Some n) label (S n)]
  | None => []
  end.

(** The number of elements one recreation creates. *)
Definition allocated (button : option Button) : nat :=
  match button with Some _ => 2%nat | None => 0%nat end.

(** The subscription [init] makes for an event type. *)
Definition subscription (eventType : string) : string * Callback :=
  (eventType, CallUpdateProxyOverlays).

(** ** Sample states *)

(** A zoomed map chart with its two navigation buttons and a reset-zoom
    button, after a drill-up button went away: the component still holds
    the proxy of the former drill-up button. *)
Definition world0 : World :=
  mkWorld
    (mkChart true
       (Some [mkButton 100 (Some 101%nat) 0; mkButton 102 (Some 103%nat) 0])
       (Some (mkButton 104 (Some 105%nat) 0)) None
       [mkExtremes 0 10 0 30] [mkExtremes 5 5 0 30]
       (fun key _ => key) "Back")
    (mkComponent
       {[ "drillUpProxyGroup" := 0%nat; "drillUpProxyButton" := 1%nat ]} None)
    (mkDom 2
       {[ 0%nat := [mkProxyButton 1 (mkButton 106 (Some 107%nat) 0)
                      "accessibility.drillUpButton" (-1)] ]})
    [] [].

(** [world0] after keyboard navigation entered the map buttons forwards. *)
Definition world1 : World := default world0 (exec (onMapNavInit 1) world0).

(** The key codes of the DOM. *)
Definition domKeyCodes : KeyCodes := mkKeyCodes 38 40 37 39 9 32 13.

(** * 5a. The rest of the component's file *)

(** A reference to a keyboard navigation handler, as passed to the
    [onMapKbd...] methods: only its [response] table is read. *)
Inductive HandlerRef := thisHandler.

(** Modelled from the spec: [fakeClickEvent] of AccessibilityComponent.js
    is missing; it "simulate[s] a click on the ... underlying element". *)
Definition fakeClickEvent (el : ElemId) : M unit := emit (EFakeClickEvent el).

(** [ZoomComponent.prototype.onMapKbdClick]; the argument is [None] when
    the caller passes none, and reading [response] of it throws. *)
Definition onMapKbdClick (keyboardNavigationHandler : option HandlerRef)
  : M Response :=
  c ← getComponent;
  button ← mapNavButton (focusedMapNavButtonIx c);
  fakeClickEvent (element button);;
  match keyboardNavigationHandler with
  | Some _ => mret success
  | None => throw
  end.

(** An entry of a [keyCodeMap] is called with the key code and the event,
    of which [shiftKey] is read. *)
Definition Action : Type := Z -> bool -> M Response.

(** The options a [KeyboardNavigationHandler] is built from: [keyCodeMap]
    and [validate].  The [init] of the map-zoom handler is [onMapNavInit];
    the [init] of a simple button handler hands [component[proxyProp]],
    which may be [undefined], to [chart.setFocusToElement] and is left
    out. *)
Record KeyboardNavigationHandler := mkHandler {
  keyCodeMap : list (list Z * Action);
  validate : World -> option JsVal
}.

(** [ZoomComponent.prototype.getMapZoomNavigation] *)
Definition getMapZoomNavigation (keys : KeyCodes) : KeyboardNavigationHandler :=
  mkHandler
    [ ([up keys; down keys; left keys; right keys],
       fun keyCode _ => onMapKbdArrow keys keyCode);
      ([tab keys],
       fun _ shiftKey => onMapKbdTab shiftKey);
      ([space keys; enter keys],
       fun _ _ => onMapKbdClick None) ]
    mapZoomValidate.

(** [ZoomComponent.prototype.simpleButtonNavigation]; [onClick] is the
    chart action the caller gives. *)
Definition simpleButtonNavigation (keys : KeyCodes)
    (buttonProp proxyProp : string) (onClick : M unit)
  : KeyboardNavigationHandler :=
  mkHandler
    [ ([tab keys; up keys; down keys; left keys; right keys],
       fun keyCode shiftKey =>
         let isBackwards :=
           (keyCode =? tab keys)%Z && shiftKey ||
           (keyCode =? left keys)%Z || (keyCode =? up keys)%Z in
         (* Arrow/tab => just move *)
         mret (if isBackwards then prev else next));
      ([space keys; enter keys],
       fun _ _ => onClick;; mret success) ]
    (simpleButtonValidate buttonProp proxyProp).

(** [ZoomComponent.prototype.getKeyboardNavigation]; [zoomOut] and
    [drillUp] are the chart's methods of these names. *)
Definition getKeyboardNavigation (keys : KeyCodes) (zoomOut drillUp : M unit)
  : list KeyboardNavigationHandler :=
  [ simpleButtonNavigation keys "resetZoomButton" "resetZoomProxyButton" zoomOut;
    simpleButtonNavigation keys "drillUpButton" "drillUpProxyButton" drillUp;
    getMapZoomNavigation keys ].

(** Modelled from the spec: the dispatch of KeyboardNavigationHandler.js
    is missing; "the ordered keyActionTable is scanned for the first entry
    whose key-code set contains the pressed code, and its action is
    invoked with (keyCode, event)".  [None] when no entry has the code. *)
Fixpoint findAction (m : list (list Z * Action)) (keyCode : Z) : option Action :=
  match m with
  | [] => None
  | (codes, action) :: m' =>
      if bool_decide (keyCode ∈ codes) then Some action
      else findAction m' keyCode
  end.

Definition dispatch (h : KeyboardNavigationHandler) (keyCode : Z)
    (shiftKey : bool) : option (M Response) :=
  (fun action => action keyCode shiftKey) <$> findAction (keyCodeMap h) keyCode.

(** The attributes [setMapNavButtonAttrs] sets. *)
Record ButtonAttrs := mkButtonAttrs {
  tabindex : Z;
  role : string;
  aria_label : string
}.

(** The calls [onChartUpdate] makes on elements of the document. *)
Inductive A11yCall :=
| CUnhideElementFromScreenReaders (el : ElemId)
| CSetElAttrs (el : ElemId) (attrs : ButtonAttrs).

(** [ZoomComponent.prototype.setMapNavButtonAttrs]: the call of
    [setElAttrs] it makes. *)
Definition setMapNavButtonAttrs (c : Chart) (button : ElemId)
    (labelFormatKey : string) : list A11yCall :=
  let label := langFormat c labelFormatKey None in
  [CSetElAttrs button (mkButtonAttrs (-1) "button" label)].

(** [ZoomComponent.prototype.onChartUpdate]: the calls it makes, in
    order. *)
Definition onChartUpdate (c : Chart) : list A11yCall :=
  match mapNavButtons c with
  | Some l =>
      concat (imap (fun i button =>
                CUnhideElementFromScreenReaders (element button) ::
                setMapNavButtonAttrs c (element button)
                  ("accessibility.zoom.mapZoom" +:+
                   (if (i =? 0)%nat then "In" else "Out"))) l)
  | None => []
  end.

(** * 5b. Further vocabulary *)

(** No map button is selected. *)
Definition noneSelected (w : World) : bool :=
  match mapNavButtons (chart w) with
  | Some l => forallb (fun b => negb (selected b)) l
  | None => true
  end.

(** The state of an active map-zoom handler: the chart has its map zoom
    and its two buttons, and exactly the focused one is selected. *)
Definition focusConsistent (w : World) : bool :=
  match focusedMapNavButtonIx (component w), mapNavButtons (chart w) with
  | Some ix, Some [zoomIn; zoomOut] =>
      mapZoom (chart w) &&
      ((ix =? 0)%Z && selected zoomIn && negb (selected zoomOut) ||
       (ix =? 1)%Z && negb (selected zoomIn) && selected zoomOut)
  | _, _ => false
  end.

(** A series of tab key presses ([true] with shift), as the navigation
    runs them: each goes to [onMapKbdTab] until one leaves the handler
    with [prev] or [next]; the result is [None] while none did. *)
Fixpoint pressTabs (shiftKeys : list bool) : M (option Response) :=
  match shiftKeys with
  | [] => mret None
  | shiftKey :: rest =>
      r ← onMapKbdTab shiftKey;
      match r with
      | success => pressTabs rest
      | _ => mret (Some r)
      end
  end.

(** The navigation may enter a handler: its [validate] returns a truthy
    value. *)
Definition isValid (h : KeyboardNavigationHandler) (w : World) : bool :=
  match validate h w with
  | Some v => truthy v
  | None => false
  end.

(** The chart has the button, and the button has its box. *)
Definition hasBox (button : option Button) : bool :=
  match button with
  | Some b => bool_decide (is_Some (box b))
  | None => false
  end.

(** The two group properties of the component. *)
Definition groupProps : list string :=
  ["resetZoomProxyGroup"; "drillUpProxyGroup"].

(** * 6. Properties of axis panning *)

Section PanStep.

Import AxisPanner.

(** Examples from the design document. *)

Example pan_boundary_example :
  let r := panStep (mkExtremes 0 10 0 30) 1 (Some 3) in
  fst r == 10 # 3 /\ snd r == 40 # 3.
Proof. vm_compute. split; reflexivity. Qed.

Example pan_clamp_example :
  let r := panStep (mkExtremes 25 30 0 30) 1 (Some 3) in
  fst r == 25 /\ snd r == 30.
Proof. vm_compute. split; reflexivity. Qed.

(** ** Basic facts *)

Lemma Qltb_lt (a b : Q) : Qltb a b = true <-> a < b.
Proof.
  unfold Qltb. rewrite negb_true_iff.
  split.
  - intros H. apply Qnot_le_lt. intros Hle.
    apply Qle_bool_iff in Hle. congruence.
  - intros H. destruct (Qle_bool b a) eqn:E; [|reflexivity].
    apply Qle_bool_iff in E. lra.
Qed.

Lemma Qltb_ge (a b : Q) : Qltb a b = false <-> b <= a.
Proof.
  unfold Qltb. rewrite negb_false_iff. apply Qle_bool_iff.
Qed.

Lemma gran_nonzero (granularity : option Q) : ~ gran granularity == 0.
Proof.
  unfold gran. destruct granularity as [g|]; [|discriminate].
  destruct (Qeq_bool g 0) eqn:E; [discriminate|].
  intros H. apply Qeq_bool_iff in H. congruence.
Qed.

Lemma gran_pos (g : Q) : 0 < g -> gran (Some g) = g.
Proof.
  intros H. unfold gran. destruct (Qeq_bool g 0) eqn:E; [|reflexivity].
  apply Qeq_bool_iff in E. lra.
Qed.


Lemma step_eq (e : Extremes) (d : Q) (granularity : option Q) :
  step e d granularity == (max e - min e) / gran granularity * d.
Proof. reflexivity. Qed.

(** A step of a positive granularity has the sign of the direction. *)
Lemma width_over_gran_nonneg (e : Extremes) (g : Q) :
  0 < g -> min e <= max e -> 0 <= (max e - min e) / g.
Proof.
  intros Hg Hle. apply Qle_shift_div_l; [exact Hg|]. lra.
Qed.

(** [panStep] unfolded into its three branches. *)
Lemma panStep_cases (e : Extremes) (d : Q) (granularity : option Q) :
  let s := step e d granularity in
  (clampsLow e d granularity = true /\
   panStep e d granularity =
     (dataMin e, dataMin e + ((max e + s) - (min e + s)))) \/
  (clampsLow e d granularity = false /\ clampsHigh e d granularity = true /\
   panStep e d granularity =
     (dataMax e - ((max e + s) - (min e + s)), dataMax e)) \/
  (clampsLow e d granularity = false /\ clampsHigh e d granularity = false /\
   panStep e d granularity = (min e + s, max e + s)).
Proof.
  unfold panStep, clampsLow, clampsHigh, step. cbv zeta.
  destruct (Qltb d 0 && Qltb _ (dataMin e)); [left; auto|].
  destruct (Qltb 0 d && Qltb (dataMax e) _); [right; left; auto|].
  right; right; auto.
Qed.

Lemma clampsLow_true (e : Extremes) (d : Q) (granularity : option Q) :
  clampsLow e d granularity = true <->
  d < 0 /\ min e + step e d granularity < dataMin e.
Proof.
  unfold clampsLow. rewrite andb_true_iff, !Qltb_lt. reflexivity.
Qed.

Lemma clampsHigh_true (e : Extremes) (d : Q) (granularity : option Q) :
  clampsHigh e d granularity = true <->
  0 < d /\ dataMax e < max e + step e d granularity.
Proof.
  unfold clampsHigh. rewrite andb_true_iff, !Qltb_lt. reflexivity.
Qed.

Lemma clampsLow_false (e : Extremes) (d : Q) (granularity : option Q) :
  clampsLow e d granularity = false <->
  0 <= d \/ dataMin e <= min e + step e d granularity.
Proof.
  unfold clampsLow. rewrite andb_false_iff, !Qltb_ge. reflexivity.
Qed.

Lemma clampsHigh_false (e : Extremes) (d : Q) (granularity : option Q) :
  clampsHigh e d granularity = false <->
  d <= 0 \/ max e + step e d granularity <= dataMax e.
Proof.
  unfold clampsHigh. rewrite andb_false_iff, !Qltb_ge. reflexivity.
Qed.

(** The window size survives every branch. *)
Lemma panStep_size (e : Extremes) (d : Q) (granularity : option Q) :
  windowSize (panStep e d granularity) == max e - min e.
Proof.
  destruct (panStep_cases e d granularity) as [[_ ->]|[(_ & _ & ->)|(_ & _ & ->)]];
    unfold windowSize; simpl; ring.
Qed.

(** Bounds for any positive granularity, integer or not. *)
Lemma panStep_bounds_pos (e : Extremes) (d g : Q) :
  0 < g ->
  dataMin e <= min e -> min e <= max e -> max e <= dataMax e ->
  d == -1 \/ d == 1 ->
  let r := panStep e d (Some g) in
  dataMin e <= fst r /\ fst r <= snd r /\ snd r <= dataMax e.
Proof.
  intros Hg H1 H2 H3 Hd r. subst r.
  pose proof (width_over_gran_nonneg e g Hg H2) as Hw.
  assert (Hs : step e d (Some g) == (max e - min e) / g * d).
  { unfold step. rewrite (gran_pos g Hg). reflexivity. }
  destruct (panStep_cases e d (Some g)) as [[_ ->]|[(_ & _ & ->)|(Hl & Hh & ->)]];
    simpl.
  - lra.
  - lra.
  - apply clampsLow_false in Hl. apply clampsHigh_false in Hh.
    set (s := step e d (Some g)) in *.
    set (w := (max e - min e) / g) in *.
    destruct Hd as [Hd|Hd].
    + assert (Hs' : s == - w) by (rewrite Hs, Hd; ring).
      destruct Hl as [Hl|Hl]; [lra|]. lra.
    + assert (Hs' : s == w) by (rewrite Hs, Hd; ring).
      destruct Hh as [Hh|Hh]; [lra|]. lra.
Qed.

(** In exact arithmetic only (binary64 breaks it, section 6a): on an axis
    whose extremes satisfy [dataMin <= min <= max <= dataMax], for a
    direction of [-1] or [+1] and a positive integer granularity [n], the
    extremes satisfy [dataMin <= newMin <= newMax <= dataMax], and when
    neither clamp fired [newMax - newMin] is [max - min]. *)
Theorem panStep_clamp_invariant (e : Extremes) (d : Q) (n : positive) :
  dataMin e <= min e -> min e <= max e -> max e <= dataMax e ->
  d == -1 \/ d == 1 ->
  let r := panStep e d (Some (inject_Z (Z.pos n))) in
  dataMin e <= fst r /\ fst r <= snd r /\ snd r <= dataMax e /\
  (noClamp e d (Some (inject_Z (Z.pos n))) = true ->
   snd r - fst r == max e - min e).
Proof.
  intros H1 H2 H3 Hd r.
  assert (Hn : 0 < inject_Z (Z.pos n)) by reflexivity.
  destruct (panStep_bounds_pos e d _ Hn H1 H2 H3 Hd) as (B1 & B2 & B3).
  repeat split; try assumption.
  intros _. apply (panStep_size e d (Some (inject_Z (Z.pos n)))).
Qed.

Lemma panStep_clamp_invariant_witness :
  let e := mkExtremes 0 10 0 30 in
  let r := panStep e 1 (Some (inject_Z 3)) in
  noClamp e 1 (Some (inject_Z 3)) = true /\
  dataMin e <= fst r /\ fst r <= snd r /\ snd r <= dataMax e /\
  (noClamp e 1 (Some (inject_Z 3)) = true -> snd r - fst r == max e - min e).
Proof.
  split; [reflexivity|].
  apply (panStep_clamp_invariant (mkExtremes 0 10 0 30) 1 3%positive).
  - discriminate.
  - discriminate.
  - discriminate.
  - right. reflexivity.
Defined.

(** In exact arithmetic only (binary64 breaks it, section 6a): the
    extremes set have the window size of the extremes read,
    [newMax - newMin = max - min], in all three branches. *)
Theorem panStep_preserves_window_size (e : Extremes) (d : Q)
    (granularity : option Q) :
  snd (panStep e d granularity) - fst (panStep e d granularity)
    == max e - min e.
Proof. exact (panStep_size e d granularity). Qed.

(** The exact reading of an inverted axis: on
    [{min: 10, max: 0, dataMin: 0, dataMax: 30}] a pan to the right sets
    the extremes [(20/3, -10/3)]: a negative window, and not the extremes
    it read. *)
Lemma panStep_inverted_axis_not_noop :
  let e := mkExtremes 10 0 0 30 in
  let r := panStep e 1 None in
  max e < min e /\
  fst r == 20 # 3 /\ snd r == - (10 # 3) /\
  windowSize r < 0 /\
  ~ (fst r == min e /\ snd r == max e).
Proof.
  vm_compute. repeat split; try reflexivity.
  intros [H _]. discriminate H.
Qed.

(** Outside the invariant of the data model, a degenerate axis is moved
    onto the data bound of the side it is panned to:
    [{min: 5, max: 5, dataMin: 10, dataMax: 30}] panned to the left has a
    zero step, the lower clamp fires and the extremes set are
    [(10, 10)]. *)
Lemma panStep_degenerate_outside_bounds_moves :
  let e := mkExtremes 5 5 10 30 in
  let r := panStep e (-1) None in
  max e == min e /\
  step e (-1) None == 0 /\
  fst r == 10 /\ snd r == 10 /\
  ~ (fst r == min e /\ snd r == max e).
Proof.
  vm_compute. repeat split; try reflexivity.
  intros [H _]. discriminate H.
Qed.

(** C8. On every axis of the data model (extremes within the data bounds,
    [dataMin <= min] and [max <= dataMax]) in the degenerate state
    [max == min], [panStep] computes a zero step and sets the extremes it
    read, for every direction and granularity; being a total function it
    raises no error. *)
Theorem panStep_degenerate_noop (e : Extremes) (d : Q) (granularity : option Q) :
  max e == min e ->
  dataMin e <= min e -> max e <= dataMax e ->
  step e d granularity == 0 /\
  fst (panStep e d granularity) == min e /\
  snd (panStep e d granularity) == max e.
Proof.
  intros Heq Hlo Hhi.
  assert (Hs : step e d granularity == 0).
  { unfold step. rewrite Heq. unfold Qminus. rewrite Qplus_opp_r.
    unfold Qdiv. ring. }
  split; [exact Hs|].
  destruct (panStep_cases e d granularity)
    as [[Hl ->]|[(_ & Hh & ->)|(_ & _ & ->)]]; simpl.
  - apply clampsLow_true in Hl. lra.
  - apply clampsHigh_true in Hh. lra.
  - lra.
Qed.

Lemma panStep_degenerate_noop_witness :
  let e := mkExtremes 5 5 0 30 in
  step e 1 None == 0 /\
  fst (panStep e 1 None) == min e /\ snd (panStep e 1 None) == max e.
Proof.
  apply (panStep_degenerate_noop (mkExtremes 5 5 0 30) 1 None).
  - reflexivity.
  - discriminate.
  - discriminate.
Defined.

(** C10. For every axis and direction, [panStep] with granularity [0]
    (in any representation [0/k]), or with the granularity omitted, sets
    the extremes it sets with granularity [3]: the falsy value is replaced
    by [3] before the division, and the divisor is never zero. *)
Theorem panStep_falsy_granularity (e : Extremes) (d : Q) :
  panStep e d None = panStep e d (Some 3) /\
  (forall k : positive, panStep e d (Some (0 # k)) = panStep e d (Some 3)) /\
  (forall granularity, Qeq_bool (gran granularity) 0 = false).
Proof.
  split; [reflexivity|]. split; [intros k; reflexivity|].
  intros granularity. unfold gran.
  destruct granularity as [g|]; [|reflexivity].
  destruct (Qeq_bool g 0) eqn:E; [reflexivity|exact E].
Qed.

End PanStep.

(** * 6a. Properties of axis panning in binary64 *)

Section PanStepBinary64.

Import AxisPanner.

(** Both models are the one text of [panStep]. *)
Lemma panStep_reading_exact (e : Extremes) (d : Q) (granularity : option Q) :
  panStep e d granularity
  = panStepOver Qplus Qminus Qmult Qdiv Qltb 0 3 (fun g => Qeq_bool g 0)
      (min e) (max e) (dataMin e) (dataMax e) d granularity.
Proof. reflexivity. Qed.

Lemma panStep_reading_binary64 (e : Binary64.Extremes) (d : float)
    (granularity : option float) :
  Binary64.panStep e d granularity
  = panStepOver PrimFloat.add PrimFloat.sub PrimFloat.mul PrimFloat.div
      PrimFloat.ltb 0%float 3%float Binary64.falsy
      (Binary64.min e) (Binary64.max e) (Binary64.dataMin e)
      (Binary64.dataMax e) d granularity.
Proof. reflexivity. Qed.










(** Both ways in which an inverted axis is left as read: the reverse
    step of a negative granularity clamped back onto it, and a step too
    small to move it. *)
Example panStep64_inverted_noop_examples :
  Binary64.panStep (Binary64.mkExtremes 10 0 10 30) (-1) (Some (-3)%float)
    = (10%float, 0%float) /\
  Binary64.panStep (Binary64.mkExtremes 0x1p+61 0x1p+60 0 0x1p+62) 1
    (Some 0x1p+60%float)
    = (0x1p+61%float, 0x1p+60%float).
Proof. vm_compute. split; reflexivity. Qed.

(** The falsy granularities of binary64 ([0], [-0], [NaN], and none given)
    are replaced by 3, as in the exact reading. *)
Lemma panStep64_falsy_granularity (e : Binary64.Extremes) (d g : float) :
  Binary64.falsy g = true ->
  Binary64.panStep e d (Some g) = Binary64.panStep e d (Some 3%float) /\
  Binary64.panStep e d None = Binary64.panStep e d (Some 3%float).
Proof.
  intros Hg. unfold Binary64.panStep, Binary64.gran. rewrite Hg.
  split; reflexivity.
Qed.

End PanStepBinary64.

(** * 7. Properties of the component *)

Section Component.

Local Close Scope Q_scope.

Ltac unfold_M :=
  unfold mbind, M_bind, mret, M_ret, getChart, getComponent, putChart,
    putComponent, putDom, emit, throw in *.

(** [length] is truthy on the non-empty arrays. *)
Lemma truthy_length {A} (l : list A) :
  truthy (JNumber (Z.of_nat (length l))) = negb (bool_decide (l = [])).
Proof. destruct l; reflexivity. Qed.

(** C4. [validate] of the map-zoom handler returns a truthy value exactly
    when [chart.mapZoom] is present and [chart.mapNavButtons] is present
    and not empty, and a falsy value in every other state of the chart; it
    never throws.  The value is that of the [&&] chain ([undefined], or
    the number of buttons); its caller tests it for truthiness. *)
Theorem mapZoomValidate_iff (w : World) :
  exists v, mapZoomValidate w = Some v /\
    (truthy v = true <->
       mapZoom (chart w) = true /\
       exists l, mapNavButtons (chart w) = Some l /\ l <> []) /\
    (truthy v = false <->
       mapZoom (chart w) = false \/ mapNavButtons (chart w) = None \/
       mapNavButtons (chart w) = Some []).
Proof.
  unfold mapZoomValidate, chartHasMapZoom, js_and, js_length, js_of_option.
  destruct (mapZoom (chart w)); cbn [truthy].
  - destruct (mapNavButtons (chart w)) as [l|]; cbn [truthy].
    + exists (JNumber (Z.of_nat (length l))). split; [reflexivity|].
      rewrite truthy_length. destruct l as [|b l]; cbn.
      * split; split; try discriminate; auto.
        intros (_ & l & Hl & Hne). inversion Hl. congruence.
      * split; split; try discriminate.
        -- intros _. split; [reflexivity|]. exists (b :: l). split; [reflexivity|discriminate].
        -- reflexivity.
        -- intros [H|[H|H]]; discriminate.
    + exists JUndefined. split; [reflexivity|]. cbn.
      split; split; try discriminate; auto.
      intros (_ & l & Hl & _). discriminate.
  - exists JUndefined. split; [reflexivity|]. cbn.
    split; split; try discriminate; auto.
    intros (H & _). discriminate.
Qed.

(** The value itself is not a boolean: on a chart with map zoom and
    buttons it is the number of buttons. *)
Lemma mapZoomValidate_value (w : World) (l : list Button) :
  mapZoom (chart w) = true -> mapNavButtons (chart w) = Some l ->
  mapZoomValidate w = Some (JNumber (Z.of_nat (length l))).
Proof.
  intros Hz Hl. unfold mapZoomValidate, chartHasMapZoom. rewrite Hz, Hl.
  reflexivity.
Qed.

(** The simple-button handler of a button the chart does not have is
    not valid. *)
Lemma simpleButtonValidate_absent (buttonProp proxyProp : string) (w : World) :
  chartButton (chart w) buttonProp = None ->
  simpleButtonValidate buttonProp proxyProp w = Some JUndefined.
Proof.
  intros H. unfold simpleButtonValidate. rewrite H. reflexivity.
Qed.

(** ** Arrow keys *)

(** What [panned] says of a chart that has the axis: the extremes
    [panStep] computes are written to the first axis of that collection and
    passed to [setExtremes]; the data bounds and the other collection stay. *)
Lemma panned_yAxis (w : World) (e : Extremes) (d : Q) :
  let r := panStep e d (Some 3%Q) in
  let w' := panned w "yAxis" e d in
  yAxis (chart w) !! 0%nat = Some e ->
  yAxis (chart w') !! 0%nat
    = Some (mkExtremes (fst r) (snd r) (dataMin e) (dataMax e)) /\
  xAxis (chart w') = xAxis (chart w) /\
  log w' = log w ++ [ESetExtremes "yAxis" (fst r) (snd r)].
Proof.
  intros r w' H. subst r w'. unfold panned. cbn.
  destruct (yAxis (chart w)) as [|e0 l]; [discriminate|].
  repeat split.
Qed.

Lemma panned_xAxis (w : World) (e : Extremes) (d : Q) :
  let r := panStep e d (Some 3%Q) in
  let w' := panned w "xAxis" e d in
  xAxis (chart w) !! 0%nat = Some e ->
  xAxis (chart w') !! 0%nat
    = Some (mkExtremes (fst r) (snd r) (dataMin e) (dataMax e)) /\
  yAxis (chart w') = yAxis (chart w) /\
  log w' = log w ++ [ESetExtremes "xAxis" (fst r) (snd r)].
Proof.
  intros r w' H. subst r w'. unfold panned. cbn.
  destruct (xAxis (chart w)) as [|e0 l]; [discriminate|].
  repeat split.
Qed.

(** The run of a pan on either axis collection. *)
Lemma axisPanStep_yAxis (w : World) (e : Extremes) (d : Q) :
  yAxis (chart w) !! 0%nat = Some e ->
  axisPanStep "yAxis" 0 d None w = Some (tt, panned w "yAxis" e d).
Proof.
  intros H. unfold axisPanStep, setExtremes, panned. unfold_M.
  cbn [axisCollection withAxisCollection String.eqb Ascii.eqb Bool.eqb chart default].
  cbn. rewrite H. cbn. rewrite H. reflexivity.
Qed.

Lemma axisPanStep_xAxis (w : World) (e : Extremes) (d : Q) :
  xAxis (chart w) !! 0%nat = Some e ->
  axisPanStep "xAxis" 0 d None w = Some (tt, panned w "xAxis" e d).
Proof.
  intros H. unfold axisPanStep, setExtremes, panned. unfold_M.
  cbn. rewrite H. cbn. rewrite H. reflexivity.
Qed.

(** Distinct key codes compare unequal. *)
Lemma Zeqb_ne (a b : Z) : a <> b -> (a =? b)%Z = false.
Proof. apply Z.eqb_neq. Qed.

(** C7. With the four arrow key codes distinct, on a chart with a first
    x-axis and a first y-axis: up and down pan [chart.yAxis[0]], left and
    right pan [chart.xAxis[0]]; up and left in direction [-1], down and
    right in direction [+1]; the extremes set are those of [panStep] with
    the default granularity 3, and the response is [success]. *)
Theorem onMapKbdArrow_pans (keys : KeyCodes) (w : World) (ex ey : Extremes) :
  NoDup [up keys; down keys; left keys; right keys] ->
  xAxis (chart w) !! 0%nat = Some ex ->
  yAxis (chart w) !! 0%nat = Some ey ->
  onMapKbdArrow keys (up keys) w = Some (success, panned w "yAxis" ey (-1)) /\
  onMapKbdArrow keys (down keys) w = Some (success, panned w "yAxis" ey 1) /\
  onMapKbdArrow keys (left keys) w = Some (success, panned w "xAxis" ex (-1)) /\
  onMapKbdArrow keys (right keys) w = Some (success, panned w "xAxis" ex 1).
Proof.
  intros Hnd Hx Hy.
  assert (Hne : up keys <> down keys /\ up keys <> left keys /\
                up keys <> right keys /\ down keys <> left keys /\
                down keys <> right keys /\ left keys <> right keys).
  { rewrite !NoDup_cons, !not_elem_of_cons in Hnd.
    destruct Hnd as ((? & ? & ? & _) & (? & ? & _) & (? & _) & _).
    repeat split; assumption. }
  destruct Hne as (H1 & H2 & H3 & H4 & H5 & H6).
  unfold onMapKbdArrow.
  repeat split.
  - rewrite Z.eqb_refl, orb_true_r. cbn [orb].
    unfold mbind at 1, M_bind at 1. rewrite (axisPanStep_yAxis w ey (-1) Hy). reflexivity.
  - rewrite Z.eqb_refl, orb_true_r, !Zeqb_ne by congruence. cbn [orb].
    unfold mbind at 1, M_bind at 1. rewrite (axisPanStep_yAxis w ey 1 Hy). reflexivity.
  - rewrite Z.eqb_refl, !Zeqb_ne by congruence. cbn [orb].
    unfold mbind at 1, M_bind at 1. rewrite (axisPanStep_xAxis w ex (-1) Hx). reflexivity.
  - rewrite !Zeqb_ne by congruence. cbn [orb].
    unfold mbind at 1, M_bind at 1. rewrite (axisPanStep_xAxis w ex 1 Hx). reflexivity.
Qed.

Lemma onMapKbdArrow_pans_witness :
  onMapKbdArrow domKeyCodes 38 world0
    = Some (success, panned world0 "yAxis" (mkExtremes 5 5 0 30) (-1)) /\
  onMapKbdArrow domKeyCodes 40 world0
    = Some (success, panned world0 "yAxis" (mkExtremes 5 5 0 30) 1) /\
  onMapKbdArrow domKeyCodes 37 world0
    = Some (success, panned world0 "xAxis" (mkExtremes 0 10 0 30) (-1)) /\
  onMapKbdArrow domKeyCodes 39 world0
    = Some (success, panned world0 "xAxis" (mkExtremes 0 10 0 30) 1).
Proof.
  apply (onMapKbdArrow_pans domKeyCodes world0
           (mkExtremes 0 10 0 30) (mkExtremes 5 5 0 30)).
  - apply (bool_decide_unpack _). vm_compute. exact I.
  - reflexivity.
  - reflexivity.
Defined.

(** Whatever the key code, the response is [success] once both first
    axes exist. *)
Lemma onMapKbdArrow_success (keys : KeyCodes) (keyCode : Z) (w : World)
    (ex ey : Extremes) :
  xAxis (chart w) !! 0%nat = Some ex ->
  yAxis (chart w) !! 0%nat = Some ey ->
  eval (onMapKbdArrow keys keyCode) w = Some success.
Proof.
  intros Hx Hy. unfold eval, onMapKbdArrow.
  unfold mbind at 1, M_bind at 1.
  destruct ((keyCode =? up keys)%Z || (keyCode =? down keys)%Z).
  - rewrite (axisPanStep_yAxis w ey _ Hy). reflexivity.
  - rewrite (axisPanStep_xAxis w ex _ Hx). reflexivity.
Qed.

(** Without a first axis to pan, the property read throws. *)
Lemma onMapKbdArrow_no_axis (keys : KeyCodes) (w : World) :
  yAxis (chart w) = [] -> onMapKbdArrow keys (up keys) w = None.
Proof.
  intros Hy. unfold onMapKbdArrow. rewrite Z.eqb_refl, orb_true_r.
  cbn [orb]. unfold mbind at 1, M_bind at 1.
  unfold axisPanStep. unfold_M. cbn. rewrite Hy. reflexivity.
Qed.

(** ** The tab key *)



(** ** Proxy overlays *)

(** The runs of the two helpers a rebuild is made of. *)
Lemma removeElement_run (el : option ElemId) (w : World) :
  removeElement el w =
  Some (tt, mkWorld (chart w) (component w)
              (mkDom (nextId (document w)) (removeGroup el (groups (document w))))
              (listeners w) (log w ++ [ERemoveElement el])).
Proof. reflexivity. Qed.

Lemma recreate_run (buttonEl : Button) (buttonProp groupProp label : string)
    (w : World) :
  let n := nextId (document w) in
  let old := props (component w) !! groupProp in
  recreateProxyButtonAndGroup buttonEl buttonProp groupProp label w =
  Some (tt, mkWorld (chart w)
              (mkComponent (<[buttonProp := S n]> (<[groupProp := n]> (props (component w))))
                 (focusedMapNavButtonIx (component w)))
              (mkDom (S (S n))
                 (alter (fun bs => bs ++ [mkProxyButton (S n) buttonEl label (-1)]) n
                    (<[n := []]> (removeGroup old (groups (document w))))))
              (listeners w)
              (log w ++ [ERemoveElement old; EAddProxyGroup n;
                         ECreateProxyButton buttonEl (Some n) label (S n)])).
Proof.
  destruct w as [c [ps fx] [n gs] ls lg]. cbn [document nextId component props].
  unfold recreateProxyButtonAndGroup.
  unfold mbind at 1, M_bind at 1. cbn [getComponent component props].
  unfold mbind at 1, M_bind at 1. rewrite removeElement_run.
  cbv [addProxyGroup setProp createProxyButton mbind M_bind mret M_ret getComponent
       putComponent putDom emit chart component document listeners log props
       focusedMapNavButtonIx nextId groups].
  rewrite lookup_insert_eq. rewrite <- !app_assoc. reflexivity.
Qed.

(** What [propsAllocated] gives for one property. *)
Lemma propsAllocated_lt (w : World) (p : string) (g : ElemId) :
  propsAllocated w = true ->
  props (component w) !! p = Some g -> (g < nextId (document w))%nat.
Proof.
  unfold propsAllocated. rewrite bool_decide_eq_true.
  intros H Hp. exact (H p g Hp).
Qed.

(** The rebuild up to its last step: the world after the two removals and
    the recreation of the reset-zoom group, handed to the recreation of
    the drill-up group. *)
Lemma updateProxyOverlays_run (w : World) :
  updateProxyOverlays w =
  (match drillUpButton (chart w) with
   | Some button =>
       recreateProxyButtonAndGroup button "drillUpProxyButton" "drillUpProxyGroup"
         (langFormat (chart w) "accessibility.drillUpButton"
            (Some (getDrilldownBackText (chart w))))
   | None => mret tt
   end)
    (match resetZoomButton (chart w) with
     | Some button =>
         let n := nextId (document w) in
         let old := props (component w) !! "resetZoomProxyGroup" in
         let label := langFormat (chart w) "accessibility.zoom.resetZoomButton" None in
         mkWorld (chart w)
           (mkComponent
              (<["resetZoomProxyButton" := S n]>
                 (<["resetZoomProxyGroup" := n]> (props (component w))))
              (focusedMapNavButtonIx (component w)))
           (mkDom (S (S n))
              (alter (fun bs => bs ++ [mkProxyButton (S n) button label (-1)]) n
                 (<[n := []]>
                    (removeGroup old
                       (removeGroup old
                          (removeGroup (props (component w) !! "drillUpProxyGroup")
                             (groups (document w))))))))
           (listeners w)
           (log w ++ [ERemoveElement (props (component w) !! "drillUpProxyGroup");
                      ERemoveElement old; ERemoveElement old; EAddProxyGroup n;
                      ECreateProxyButton button (Some n) label (S n)])
     | None =>
         mkWorld (chart w) (component w)
           (mkDom (nextId (document w))
              (removeGroup (props (component w) !! "resetZoomProxyGroup")
                 (removeGroup (props (component w) !! "drillUpProxyGroup")
                    (groups (document w)))))
           (listeners w)
           (log w ++ [ERemoveElement (props (component w) !! "drillUpProxyGroup");
                      ERemoveElement (props (component w) !! "resetZoomProxyGroup")])
     end).
Proof.
  unfold updateProxyOverlays.
  unfold mbind at 1, M_bind at 1. cbn [getChart].
  unfold mbind at 1, M_bind at 1. cbn [getComponent].
  unfold mbind at 1, M_bind at 1. rewrite removeElement_run.
  unfold mbind at 1, M_bind at 1. cbn [getComponent component].
  unfold mbind at 1, M_bind at 1. rewrite removeElement_run.
  cbn [chart component document listeners log nextId groups].
  unfold mbind at 1, M_bind at 1.
  destruct (resetZoomButton (chart w)) as [br|].
  - rewrite recreate_run.
    cbn [chart component document listeners log nextId groups props focusedMapNavButtonIx].
    rewrite <- !app_assoc. reflexivity.
  - cbn [mret M_ret]. rewrite <- !app_assoc. reflexivity.
Qed.

(** Lookups in the document after a removal and after a creation. *)
Lemma lookup_removeGroup (old : option ElemId)
    (gs : gmap ElemId (list ProxyButton)) (g : ElemId) :
  removeGroup old gs !! g = if decide (old = Some g) then None else gs !! g.
Proof.
  destruct old as [g'|]; cbn.
  - rewrite lookup_delete. repeat case_decide; congruence.
  - case_decide; [discriminate|reflexivity].
Qed.

Lemma lookup_created (f : list ProxyButton -> list ProxyButton) (k g : ElemId)
    (gs : gmap ElemId (list ProxyButton)) :
  alter f k (<[k := []]> gs) !! g =
  if decide (k = g) then Some (f []) else gs !! g.
Proof.
  rewrite lookup_alter. case_decide.
  - rewrite lookup_insert_eq. reflexivity.
  - rewrite lookup_insert_ne by assumption. reflexivity.
Qed.

Ltac lookups :=
  cbn [chart component document listeners log nextId groups props
       focusedMapNavButtonIx];
  repeat (progress (rewrite ?lookup_created, ?lookup_removeGroup; repeat case_decide));
  subst; try reflexivity; try lia; try congruence;
  try solve [exfalso; simplify_eq; lia].

Ltac rebuild_tail :=
  unfold proxyGroupContent, propsAllocated;
  cbn [chart component document listeners log nextId groups props
       focusedMapNavButtonIx recreateEffects allocated app Nat.add];
  repeat (rewrite lookup_insert_eq || rewrite lookup_insert_ne by discriminate);
  repeat match goal with
         | |- context [props (component ?w) !! ?k] =>
             let o := fresh "old" in
             let E := fresh "Eold" in
             destruct (props (component w) !! k) as [o|] eqn:E
         end;
  repeat match goal with
         | Hlt : forall g : nat, Some ?x = Some g -> _ |- _ =>
             specialize (Hlt x eq_refl)
         | Hlt : forall g : nat, None = Some g -> _ |- _ => clear Hlt
         end;
  (split; [rewrite <- ?app_assoc; reflexivity|]);
  (split; [intros ? [?|?]; lookups|]);
  (split; [lookups|]); (split; [lookups|]);
  (split; [intros ? ? ? ?; lookups|]);
  (split; [reflexivity|]);
  apply bool_decide_eq_true;
  repeat apply map_Forall_insert_2; try lia;
  (eapply map_Forall_impl; [eassumption|]); cbn; intros; lia.

(** C5. Every call of [updateProxyOverlays] first removes the drill-up
    and the reset-zoom proxy group, whatever the chart has; then it
    recreates the reset-zoom group exactly when the chart has
    [resetZoomButton] and the drill-up group exactly when it has
    [drillUpButton].  Afterwards the former groups are gone from the
    document, each group property refers to an attached group exactly
    when the chart has the button, that group holds one proxy for the
    button, and without a drill-up button no drill-up proxy is created. *)
Theorem updateProxyOverlays_rebuild (w : World) :
  propsAllocated w = true ->
  let oldDrill := props (component w) !! "drillUpProxyGroup" in
  let oldReset := props (component w) !! "resetZoomProxyGroup" in
  let reset := resetZoomButton (chart w) in
  let drill := drillUpButton (chart w) in
  let resetLabel := langFormat (chart w) "accessibility.zoom.resetZoomButton" None in
  let drillLabel := langFormat (chart w) "accessibility.drillUpButton"
                      (Some (getDrilldownBackText (chart w))) in
  let n := nextId (document w) in
  exists w',
    updateProxyOverlays w = Some (tt, w') /\
    log w' = log w ++ [ERemoveElement oldDrill; ERemoveElement oldReset]
                   ++ recreateEffects oldReset n reset resetLabel
                   ++ recreateEffects oldDrill (allocated reset + n) drill drillLabel /\
    (forall g, oldDrill = Some g \/ oldReset = Some g ->
               groups (document w') !! g = None) /\
    map proxyView <$> proxyGroupContent w' "resetZoomProxyGroup"
      = (fun b => [(b, resetLabel, (-1)%Z)]) <$> reset /\
    map proxyView <$> proxyGroupContent w' "drillUpProxyGroup"
      = (fun b => [(b, drillLabel, (-1)%Z)]) <$> drill /\
    (forall g, (g < n)%nat -> oldDrill <> Some g -> oldReset <> Some g ->
               groups (document w') !! g = groups (document w) !! g) /\
    chart w' = chart w /\
    propsAllocated w' = true.
Proof.
  intros Hall oldDrill oldReset reset drill resetLabel drillLabel n.
  assert (HoD : forall g, oldDrill = Some g -> (g < n)%nat).
  { intros g Hg. exact (propsAllocated_lt w _ g Hall Hg). }
  assert (HoR : forall g, oldReset = Some g -> (g < n)%nat).
  { intros g Hg. exact (propsAllocated_lt w _ g Hall Hg). }
  assert (Hps : map_Forall (fun _ g => g < n)%nat (props (component w))).
  { unfold propsAllocated in Hall. rewrite bool_decide_eq_true in Hall. exact Hall. }
  subst oldDrill oldReset.
  rewrite updateProxyOverlays_run.
  fold reset drill resetLabel drillLabel n.
  clearbody resetLabel drillLabel.
  destruct reset as [br|], drill as [bd|].
  - rewrite recreate_run. eexists. split; [reflexivity|]. rebuild_tail.
  - eexists. split; [reflexivity|]. rebuild_tail.
  - rewrite recreate_run. eexists. split; [reflexivity|]. rebuild_tail.
  - eexists. split; [reflexivity|]. rebuild_tail.
Qed.

Lemma updateProxyOverlays_rebuild_witness :
  propsAllocated world0 = true /\
  exists w',
    updateProxyOverlays world0 = Some (tt, w') /\
    log w' = [ERemoveElement (Some 0%nat); ERemoveElement None; ERemoveElement None;
              EAddProxyGroup 2;
              ECreateProxyButton (mkButton 104 (Some 105) 0) (Some 2%nat)
                "accessibility.zoom.resetZoomButton" 3] /\
    (forall g, Some 0%nat = Some g \/ None = Some g ->
               groups (document w') !! g = None) /\
    map proxyView <$> proxyGroupContent w' "resetZoomProxyGroup"
      = Some [(mkButton 104 (Some 105) 0, "accessibility.zoom.resetZoomButton", (-1)%Z)] /\
    map proxyView <$> proxyGroupContent w' "drillUpProxyGroup" = None /\
    (forall g, (g < 2)%nat -> Some 0%nat <> Some g -> None <> Some g ->
               groups (document w') !! g = groups (document world0) !! g) /\
    chart w' = chart world0 /\
    propsAllocated w' = true.
Proof.
  split; [reflexivity|].
  apply (updateProxyOverlays_rebuild world0). reflexivity.
Defined.

(** The rebuild never throws. *)
Lemma updateProxyOverlays_total (w : World) :
  exists w', updateProxyOverlays w = Some (tt, w').
Proof.
  rewrite updateProxyOverlays_run.
  destruct (drillUpButton (chart w)); [rewrite recreate_run|]; eexists; reflexivity.
Qed.

(** ** Subscriptions *)

(** The run of [init]. *)
Lemma init_run (w : World) :
  init w =
  Some (tt, mkWorld (chart w) (component w) (document w)
              (listeners w ++ map subscription initEventTypes)
              (log w ++ map EAddEvent initEventTypes)).
Proof.
  unfold init, initEventTypes, forEach, addEvent. unfold_M. cbn.
  rewrite <- !app_assoc. reflexivity.
Qed.

(** C9, as the design document has it, fails: [init] subscribes to no
    redraw event of the chart.  After [init], neither [redraw] nor
    [render] has a subscription and firing them rebuilds nothing, while
    [afterShowResetZoom], which the claim does not name, has one. *)
Lemma init_does_not_subscribe_redraw :
  exists w',
    init world0 = Some (tt, w') /\
    ("redraw" ∉ map fst (listeners w')) /\
    ("render" ∉ map fst (listeners w')) /\
    ("afterShowResetZoom" ∈ map fst (listeners w')) /\
    map fst (listeners w') <> ["redraw"; "afterDrilldown"; "drillupall"] /\
    fireEvent "redraw" w' = Some (tt, w') /\
    fireEvent "render" w' = Some (tt, w').
Proof.
  eexists. split; [reflexivity|]. cbn.
  repeat split.
  - rewrite !not_elem_of_cons. repeat split; try discriminate. apply not_elem_of_nil.
  - rewrite !not_elem_of_cons. repeat split; try discriminate. apply not_elem_of_nil.
  - rewrite elem_of_cons. left. reflexivity.
  - discriminate.
Qed.

(** C9, amended. On initialization the component subscribes to exactly
    the chart events [afterShowResetZoom], [afterDrilldown] and
    [drillupall]; firing any of them runs [updateProxyOverlays], firing
    any other event runs nothing.  A render of the chart reaches
    [updateProxyOverlays] through the hook [onChartRender], not through a
    subscription. *)
Theorem init_subscriptions (w : World) :
  listeners w = [] ->
  exists w',
    init w = Some (tt, w') /\
    map fst (listeners w') = ["afterShowResetZoom"; "afterDrilldown"; "drillupall"] /\
    chart w' = chart w /\ component w' = component w /\
    document w' = document w /\
    forall v, listeners v = listeners w' ->
      (forall e, e ∈ ["afterShowResetZoom"; "afterDrilldown"; "drillupall"] ->
                 fireEvent e v = updateProxyOverlays v) /\
      (forall e, e ∉ ["afterShowResetZoom"; "afterDrilldown"; "drillupall"] ->
                 fireEvent e v = Some (tt, v)) /\
      onChartRender v = updateProxyOverlays v.
Proof.
  intros Hl. rewrite init_run, Hl. eexists. split; [reflexivity|].
  cbn [chart component document listeners log app map initEventTypes subscription fst].
  repeat split.
  - intros e He. unfold fireEvent. rewrite H. clear H.
    rewrite !elem_of_cons in He.
    destruct He as [->|[->|[->|He]]]; [| | |by apply elem_of_nil in He];
      cbv [runListeners subscription String.eqb Ascii.eqb Bool.eqb mbind M_bind
           mret M_ret runCallback];
      destruct (updateProxyOverlays v) as [[[] v']|]; reflexivity.
  - intros e He. unfold fireEvent. rewrite H. clear H.
    rewrite !not_elem_of_cons in He. destruct He as (H1 & H2 & H3 & _).
    cbv [runListeners subscription].
    apply not_eq_sym, String.eqb_neq in H1, H2, H3.
    rewrite H1, H2, H3. reflexivity.
Qed.

Lemma init_subscriptions_witness :
  exists w',
    init world0 = Some (tt, w') /\
    map fst (listeners w') = ["afterShowResetZoom"; "afterDrilldown"; "drillupall"] /\
    chart w' = chart world0 /\ component w' = component world0 /\
    document w' = document world0 /\
    forall v, listeners v = listeners w' ->
      (forall e, e ∈ ["afterShowResetZoom"; "afterDrilldown"; "drillupall"] ->
                 fireEvent e v = updateProxyOverlays v) /\
      (forall e, e ∉ ["afterShowResetZoom"; "afterDrilldown"; "drillupall"] ->
                 fireEvent e v = Some (tt, v)) /\
      onChartRender v = updateProxyOverlays v.
Proof. apply (init_subscriptions world0). reflexivity. Defined.

End Component.

(** * 8. Further properties of axis panning *)

Section PanStepFurther.

Import AxisPanner.


End PanStepFurther.

(** * 9. Further properties of the component *)

Section ComponentFurther.

Local Close Scope Q_scope.

Ltac unfold_M :=
  unfold mbind, M_bind, mret, M_ret, getChart, getComponent, putChart,
    putComponent, putDom, emit, throw in *.

(** ** Entering the map buttons *)

(** X5. [onMapNavInit] focuses and selects the zoom-in button (index 0)
    for a direction above 0 and the zoom-out button (index 1) otherwise,
    records the index and leaves the other buttons as they are; it throws
    when that button does not exist. *)
Theorem onMapNavInit_spec (w : World) (direction : Z) (l : list Button) :
  mapNavButtons (chart w) = Some l ->
  let ix := if (0 <? direction)%Z then 0%Z else 1%Z in
  match nthZ l ix with
  | Some b =>
      exists w',
        onMapNavInit direction w = Some (tt, w') /\
        focusedMapNavButtonIx (component w') = Some ix /\
        mapNavButtons (chart w') = Some (<[Z.to_nat ix := withState b 2]> l) /\
        log w' = log w ++ [ESetFocusToElement (box b) (element b);
                           ESetState ix 2]
  | None => onMapNavInit direction w = None
  end.
Proof.
  intros Hl ix. subst ix.
  destruct w as [c co dm ls lg]. destruct c, co. cbn in Hl. subst.
  unfold onMapNavInit.
  destruct (0 <? direction)%Z.
  - destruct l as [|b0 l]; [reflexivity|].
    lazy -[Z.eqb app]. eexists. split; [reflexivity|].
    rewrite <- !app_assoc. repeat split.
  - destruct l as [|b0 [|b1 l]]; [reflexivity|reflexivity|].
    lazy -[Z.eqb app]. eexists. split; [reflexivity|].
    rewrite <- !app_assoc. repeat split.
Qed.

Lemma onMapNavInit_spec_witness :
  exists w',
    onMapNavInit 1 world0 = Some (tt, w') /\
    focusedMapNavButtonIx (component w') = Some 0%Z /\
    mapNavButtons (chart w')
      = Some [mkButton 100 (Some 101) 2; mkButton 102 (Some 103) 0] /\
    log w' = [ESetFocusToElement (Some 101) 100; ESetState 0 2].
Proof.
  apply (onMapNavInit_spec world0 1
           [mkButton 100 (Some 101) 0; mkButton 102 (Some 103) 0]).
  reflexivity.
Defined.

(** ** Sessions of tab keys *)

(** Entering establishes the state of an active handler. *)
Lemma onMapNavInit_consistent (w : World) (direction : Z)
    (zoomIn zoomOut : Button) :
  mapZoom (chart w) = true ->
  mapNavButtons (chart w) = Some [zoomIn; zoomOut] ->
  selected zoomIn = false -> selected zoomOut = false ->
  exists w',
    onMapNavInit direction w = Some (tt, w') /\ focusConsistent w' = true.
Proof.
  intros Hz Hl H0 H1.
  destruct w as [c co dm ls lg]. destruct c, co. cbn in Hz, Hl. subst.
  destruct zoomIn as [e0 x0 s0], zoomOut as [e1 x1 s1].
  unfold selected in *. cbn in H0, H1.
  unfold onMapNavInit.
  destruct (0 <? direction)%Z;
    lazy -[Z.eqb app]; eexists; (split; [reflexivity|]); cbn;
    rewrite ?H0, ?H1; reflexivity.
Qed.

(** One tab key keeps that state or leaves with every button
    deselected. *)
Lemma onMapKbdTab_consistent (w : World) (shiftKey : bool) :
  focusConsistent w = true ->
  exists r w',
    onMapKbdTab shiftKey w = Some (r, w') /\
    (r = success /\ focusConsistent w' = true \/
     r = (if shiftKey then prev else next) /\ noneSelected w' = true).
Proof.
  intros H.
  destruct w as [c co dm ls lg]. destruct c as [mz mb rz du xa ya lf bt].
  destruct co as [ps fx].
  unfold focusConsistent in H. cbn in H.
  destruct fx as [ix|]; [|discriminate].
  destruct mb as [[|[e0 x0 s0] [|[e1 x1 s1] [|b2 l]]]|]; try discriminate.
  unfold selected in H. cbn in H.
  destruct mz; [|discriminate]. cbn in H.
  apply orb_true_iff in H.
  destruct H as [H|H]; rewrite !andb_true_iff, ?negb_true_iff in H;
    destruct H as [[Hix Ha] Hb]; apply Z.eqb_eq in Hix; subst ix;
    destruct shiftKey;
    lazy -[Z.eqb app]; do 2 eexists; (split; [reflexivity|]);
    unfold noneSelected, focusConsistent, selected; cbn;
    rewrite ?Ha, ?Hb; cbn; auto.
Qed.

(** X6. From the state an active map-zoom handler is in (map zoom and
    both buttons present, exactly the focused button selected), no series
    of tab and shift+tab presses throws; while the handler keeps the
    focus that state is kept, and when a press leaves with [prev] or
    [next] no button is left selected. *)
Theorem pressTabs_consistent (shiftKeys : list bool) (w : World) :
  focusConsistent w = true ->
  exists res w',
    pressTabs shiftKeys w = Some (res, w') /\
    match res with
    | None => focusConsistent w' = true
    | Some r => (r = prev \/ r = next) /\ noneSelected w' = true
    end.
Proof.
  revert w. induction shiftKeys as [|k ks IH]; intros w H.
  - exists None, w. split; [reflexivity|exact H].
  - destruct (onMapKbdTab_consistent w k H) as (r & w1 & Hr & Hcase).
    cbn [pressTabs]. unfold mbind at 1, M_bind at 1. rewrite Hr.
    destruct Hcase as [[-> Hc]|[-> Hn]].
    + exact (IH w1 Hc).
    + destruct k; (eexists; eexists; split; [reflexivity|]); cbn; auto.
Qed.

Lemma pressTabs_consistent_witness :
  exists res w',
    pressTabs [false; true; true] world1 = Some (res, w') /\
    match res with
    | None => focusConsistent w' = true
    | Some r => (r = prev \/ r = next) /\ noneSelected w' = true
    end.
Proof. apply (pressTabs_consistent [false; true; true] world1). reflexivity. Defined.

(** X7. Entering the map buttons and going on in the direction of entry
    visits both buttons and then leaves: the first tab key is answered
    with [success], the second with [next] (forwards) or [prev]
    (backwards, with shift), the map zoom is reset once, and both buttons
    end deselected. *)
Theorem map_buttons_traversal (w : World) (direction : Z)
    (zoomIn zoomOut : Button) :
  mapZoom (chart w) = true ->
  mapNavButtons (chart w) = Some [zoomIn; zoomOut] ->
  let forwards := (0 <? direction)%Z in
  let first := if forwards then zoomIn else zoomOut in
  let second := if forwards then zoomOut else zoomIn in
  let i1 := if forwards then 0%Z else 1%Z in
  let i2 := if forwards then 1%Z else 0%Z in
  exists w',
    (onMapNavInit direction;;
     r1 ← onMapKbdTab (negb forwards);
     r2 ← onMapKbdTab (negb forwards);
     mret (r1, r2)) w
      = Some ((success, if forwards then next else prev), w') /\
    mapNavButtons (chart w') = Some [withState zoomIn 0; withState zoomOut 0] /\
    log w' = log w ++ [ESetFocusToElement (box first) (element first);
                       ESetState i1 2; ESetState i1 0;
                       ESetFocusToElement (box second) (element second);
                       ESetState i2 2; ESetState i2 0; EMapZoom].
Proof.
  intros Hz Hl forwards first second i1 i2.
  subst forwards first second i1 i2.
  destruct w as [c co dm ls lg]. destruct c, co. cbn in Hz, Hl. subst.
  destruct zoomIn as [e0 x0 s0], zoomOut as [e1 x1 s1].
  unfold onMapNavInit.
  destruct (0 <? direction)%Z;
    lazy -[Z.eqb app]; eexists; (split; [reflexivity|]);
    rewrite <- !app_assoc; split; reflexivity.
Qed.

Lemma map_buttons_traversal_witness :
  exists w',
    (onMapNavInit (-1);;
     r1 ← onMapKbdTab true;
     r2 ← onMapKbdTab true;
     mret (r1, r2)) world0 = Some ((success, prev), w') /\
    mapNavButtons (chart w')
      = Some [mkButton 100 (Some 101) 0; mkButton 102 (Some 103) 0] /\
    log w' = [ESetFocusToElement (Some 103) 102; ESetState 1 2; ESetState 1 0;
              ESetFocusToElement (Some 101) 100; ESetState 0 2; ESetState 0 0;
              EMapZoom].
Proof.
  apply (map_buttons_traversal world0 (-1)
           (mkButton 100 (Some 101) 0) (mkButton 102 (Some 103) 0)).
  - reflexivity.
  - reflexivity.
Defined.

(** X8. [onMapKbdTab] throws when no button has the focus yet
    ([focusedMapNavButtonIx] is [undefined]), when the chart has no map
    buttons, and when the focused index has no button. *)
Theorem onMapKbdTab_throws (w : World) (shiftKey : bool) :
  focusedMapNavButtonIx (component w) = None \/
  mapNavButtons (chart w) = None \/
  (exists ix l, focusedMapNavButtonIx (component w) = Some ix /\
                mapNavButtons (chart w) = Some l /\ nthZ l ix = None) ->
  onMapKbdTab shiftKey w = None.
Proof.
  intros H.
  destruct w as [c co dm ls lg]. destruct c, co. cbn in H.
  unfold onMapKbdTab, setStateAt, mapNavButton. unfold_M. cbn.
  destruct H as [->|[->|(ix & l & -> & -> & Hn)]].
  - destruct mapNavButtons0; reflexivity.
  - reflexivity.
  - rewrite Hn. reflexivity.
Qed.

Lemma onMapKbdTab_throws_witness : onMapKbdTab false world0 = None.
Proof. apply (onMapKbdTab_throws world0 false). left. reflexivity. Defined.

(** ** The click *)

(** Without its argument [onMapKbdClick] throws. *)
Lemma onMapKbdClick_unpassed (v : World) : onMapKbdClick None v = None.
Proof.
  unfold onMapKbdClick, mapNavButton, fakeClickEvent. unfold_M.
  destruct (mapNavButtons (chart v)) as [l'|]; [|reflexivity].
  destruct (focusedMapNavButtonIx (component v)) as [i|]; [|reflexivity].
  destruct (nthZ l' i); reflexivity.
Qed.

(** X9. With the handler passed, [onMapKbdClick] simulates a click on the
    element of the focused map button and answers [success], changing
    nothing else; called with no argument it throws, whatever the state. *)
Theorem onMapKbdClick_spec (w : World) (ix : Z) (l : list Button) (b : Button) :
  focusedMapNavButtonIx (component w) = Some ix ->
  mapNavButtons (chart w) = Some l ->
  nthZ l ix = Some b ->
  onMapKbdClick (Some thisHandler) w
    = Some (success,
            mkWorld (chart w) (component w) (document w) (listeners w)
              (log w ++ [EFakeClickEvent (element b)])) /\
  forall v, onMapKbdClick None v = None.
Proof.
  intros Hf Hl Hb. split.
  - destruct w as [c co dm ls lg]. destruct c, co. cbn in Hf, Hl. subst.
    unfold onMapKbdClick, mapNavButton, fakeClickEvent. unfold_M. cbn.
    rewrite Hb. reflexivity.
  - exact onMapKbdClick_unpassed.
Qed.

Lemma onMapKbdClick_spec_witness :
  onMapKbdClick (Some thisHandler) world1
    = Some (success,
            mkWorld (chart world1) (component world1) (document world1)
              (listeners world1) (log world1 ++ [EFakeClickEvent 100])) /\
  forall v, onMapKbdClick None v = None.
Proof.
  apply (onMapKbdClick_spec world1 0
           [mkButton 100 (Some 101) 2; mkButton 102 (Some 103) 0]
           (mkButton 100 (Some 101) 2)).
  - reflexivity.
  - reflexivity.
  - reflexivity.
Defined.

(** ** The key tables *)

(** Pairwise distinct key codes. *)
Lemma NoDup_keys (keys : KeyCodes) :
  NoDup [up keys; down keys; left keys; right keys; tab keys; space keys;
         enter keys] ->
  (tab keys ∉ [up keys; down keys; left keys; right keys]) /\
  (space keys ∉ [up keys; down keys; left keys; right keys]) /\
  (enter keys ∉ [up keys; down keys; left keys; right keys]) /\
  (space keys ∉ [tab keys]) /\ (enter keys ∉ [tab keys]) /\
  (space keys ∉ [tab keys; up keys; down keys; left keys; right keys]) /\
  (enter keys ∉ [tab keys; up keys; down keys; left keys; right keys]).
Proof.
  rewrite !NoDup_cons, !not_elem_of_cons.
  intros H. destruct_and!. repeat split; auto using not_elem_of_nil.
Qed.

(** X10. The key table of the map-zoom handler, for pairwise distinct
    key codes: an arrow key runs [onMapKbdArrow], the tab key runs
    [onMapKbdTab], any other key but space and enter has no entry; space
    and enter run [onMapKbdClick] without its argument, so that they throw
    in every state and never answer. *)
Theorem mapZoom_key_table (keys : KeyCodes) (shiftKey : bool) :
  NoDup [up keys; down keys; left keys; right keys; tab keys; space keys;
         enter keys] ->
  let h := getMapZoomNavigation keys in
  (forall k, k ∈ [up keys; down keys; left keys; right keys] ->
             dispatch h k shiftKey = Some (onMapKbdArrow keys k)) /\
  dispatch h (tab keys) shiftKey = Some (onMapKbdTab shiftKey) /\
  (forall k, k ∈ [space keys; enter keys] ->
             exists m, dispatch h k shiftKey = Some m /\ forall w, m w = None) /\
  (forall k, k ∉ [up keys; down keys; left keys; right keys; tab keys;
                  space keys; enter keys] ->
             dispatch h k shiftKey = None).
Proof.
  intros Hnd h. subst h.
  destruct (NoDup_keys keys Hnd) as (Ht & Hs & He & Hst & Het & _ & _).
  unfold dispatch, getMapZoomNavigation. cbn [keyCodeMap findAction].
  repeat split.
  - intros k Hk. rewrite (bool_decide_eq_true_2 _ Hk). reflexivity.
  - rewrite (bool_decide_eq_false_2 _ Ht).
    rewrite bool_decide_eq_true_2 by (apply elem_of_cons; left; reflexivity).
    reflexivity.
  - intros k Hk. exists (onMapKbdClick None).
    split; [|exact onMapKbdClick_unpassed].
    assert ((k ∉ [up keys; down keys; left keys; right keys]) /\
            (k ∉ [tab keys])) as [H1 H2].
    { rewrite !elem_of_cons in Hk.
      destruct Hk as [->|[->|Hk]]; [auto|auto|by apply elem_of_nil in Hk]. }
    rewrite (bool_decide_eq_false_2 _ H1), (bool_decide_eq_false_2 _ H2).
    rewrite (bool_decide_eq_true_2 _ Hk). reflexivity.
  - intros k Hk. rewrite !not_elem_of_cons in Hk. destruct_and!.
    rewrite !bool_decide_eq_false_2; [reflexivity| | |];
      rewrite !not_elem_of_cons; repeat split; auto using not_elem_of_nil.
Qed.

Lemma mapZoom_key_table_witness :
  let h := getMapZoomNavigation domKeyCodes in
  (forall k, k ∈ [38; 40; 37; 39]%Z ->
             dispatch h k true = Some (onMapKbdArrow domKeyCodes k)) /\
  dispatch h 9 true = Some (onMapKbdTab true) /\
  (forall k, k ∈ [32; 13]%Z ->
             exists m, dispatch h k true = Some m /\ forall w, m w = None) /\
  (forall k, k ∉ [38; 40; 37; 39; 9; 32; 13]%Z -> dispatch h k true = None).
Proof.
  apply (mapZoom_key_table domKeyCodes true).
  apply (bool_decide_unpack _). vm_compute. exact I.
Defined.

(** X11. A simple button handler never consumes a tab or arrow key: it
    answers [prev] for shift+tab, left and up and [next] for tab, right
    and down, and leaves the state as it is.  Space and enter, when no
    key code is shared with those keys, run the click action and answer
    [success]. *)
Theorem simpleButton_key_table (keys : KeyCodes)
    (buttonProp proxyProp : string) (onClick : M unit) (shiftKey : bool) :
  space keys ∉ [tab keys; up keys; down keys; left keys; right keys] ->
  enter keys ∉ [tab keys; up keys; down keys; left keys; right keys] ->
  let h := simpleButtonNavigation keys buttonProp proxyProp onClick in
  (forall k, k ∈ [tab keys; up keys; down keys; left keys; right keys] ->
     exists m, dispatch h k shiftKey = Some m /\
       forall w, m w =
         Some (if bool_decide (k = tab keys /\ shiftKey = true \/
                               k = left keys \/ k = up keys)
               then prev else next, w)) /\
  (forall k, k ∈ [space keys; enter keys] ->
     dispatch h k shiftKey = Some (onClick;; mret success)).
Proof.
  intros Hs He h. subst h.
  unfold dispatch, simpleButtonNavigation. cbn [keyCodeMap findAction].
  split.
  - intros k Hk. rewrite (bool_decide_eq_true_2 _ Hk).
    eexists. split; [reflexivity|]. intros w. cbn.
    unfold mret, M_ret. do 2 f_equal.
    destruct (Z.eqb_spec k (tab keys)), (Z.eqb_spec k (left keys)),
      (Z.eqb_spec k (up keys)), shiftKey; cbn;
      (rewrite bool_decide_eq_true_2 by tauto) ||
      (rewrite bool_decide_eq_false_2 by (intros [[? ?]|[?|?]]; congruence));
      reflexivity.
  - intros k Hk.
    assert (Hn : k ∉ [tab keys; up keys; down keys; left keys; right keys]).
    { rewrite !elem_of_cons in Hk.
      destruct Hk as [->|[->|Hk]]; [auto|auto|by apply elem_of_nil in Hk]. }
    rewrite (bool_decide_eq_false_2 _ Hn), (bool_decide_eq_true_2 _ Hk).
    reflexivity.
Qed.

Lemma simpleButton_key_table_witness :
  let h := simpleButtonNavigation domKeyCodes "resetZoomButton"
             "resetZoomProxyButton" (mret tt) in
  (forall k, k ∈ [9; 38; 40; 37; 39]%Z ->
     exists m, dispatch h k true = Some m /\
       forall w, m w =
         Some (if bool_decide (k = 9%Z /\ true = true \/ k = 37%Z \/ k = 38%Z)
               then prev else next, w)) /\
  (forall k, k ∈ [32; 13]%Z ->
     dispatch h k true = Some (mret tt;; mret success)).
Proof.
  apply (simpleButton_key_table domKeyCodes "resetZoomButton"
           "resetZoomProxyButton" (mret tt) true).
  - apply (bool_decide_unpack _). vm_compute. exact I.
  - apply (bool_decide_unpack _). vm_compute. exact I.
Defined.

(** ** Proxies and validation *)

Ltac lookups :=
  cbn [chart component document listeners log nextId groups props
       focusedMapNavButtonIx];
  repeat (progress (rewrite ?lookup_created, ?lookup_removeGroup; repeat case_decide));
  subst; try reflexivity; try lia; try congruence;
  try solve [exfalso; simplify_eq; lia].

(** X12. [getKeyboardNavigation] lists three handlers in this order: the
    simple handler of the reset-zoom button, whose click action is the
    chart's [zoomOut]; the simple handler of the drill-up button, whose
    click action is the chart's [drillUp]; and the map-zoom handler.
    After a rebuild of the proxies the navigation may enter the first
    exactly when the chart has a reset-zoom button with its box, the
    second exactly when it has a drill-up button with its box, and the
    third exactly when the chart has its map zoom and at least one map
    button; no [validate] throws.  Before any proxy was made, neither of
    the first two may be entered. *)
Theorem validate_after_rebuild (keys : KeyCodes) (zoomOut drillUp : M unit)
    (w : World) :
  let resetZoom :=
    simpleButtonNavigation keys "resetZoomButton" "resetZoomProxyButton"
      zoomOut in
  let drillUpH :=
    simpleButtonNavigation keys "drillUpButton" "drillUpProxyButton"
      drillUp in
  let mapZoomH := getMapZoomNavigation keys in
  getKeyboardNavigation keys zoomOut drillUp = [resetZoom; drillUpH; mapZoomH] /\
  (exists w',
     updateProxyOverlays w = Some (tt, w') /\
     is_Some (validate resetZoom w') /\ is_Some (validate drillUpH w') /\
     is_Some (validate mapZoomH w') /\
     isValid resetZoom w' = hasBox (resetZoomButton (chart w)) /\
     isValid drillUpH w' = hasBox (drillUpButton (chart w)) /\
     isValid mapZoomH w'
       = mapZoom (chart w) &&
         match mapNavButtons (chart w) with
         | Some (_ :: _) => true
         | _ => false
         end) /\
  (forall u, props (component u) = ∅ ->
             isValid resetZoom u = false /\ isValid drillUpH u = false).
Proof.
  intros resetZoom drillUpH mapZoomH. subst resetZoom drillUpH mapZoomH.
  split; [reflexivity|]. split.
  - pose proof (updateProxyOverlays_run w) as Hrun.
    destruct (drillUpButton (chart w)) as [bd|] eqn:Hd,
      (resetZoomButton (chart w)) as [br|] eqn:Hr;
      rewrite ?recreate_run in Hrun;
      (eexists; split; [exact Hrun|]);
      unfold isValid, hasBox, simpleButtonNavigation, getMapZoomNavigation,
        validate, simpleButtonValidate, mapZoomValidate, chartHasMapZoom,
        chartButton, js_and, js_length, js_of_option;
      cbn [String.eqb Ascii.eqb Bool.eqb chart component props document nextId
           groups listeners log focusedMapNavButtonIx];
      rewrite ?Hd, ?Hr;
      repeat (rewrite lookup_insert_eq || rewrite lookup_insert_ne by discriminate);
      try destruct bd as [ed [xd|] sd]; try destruct br as [er [xr|] sr];
      cbn [box truthy];
      (split; [eauto|]); (split; [eauto|]);
      (split; [destruct (mapZoom (chart w));
               destruct (mapNavButtons (chart w)); cbn [truthy]; eauto|]);
      (split; [reflexivity|]); (split; [reflexivity|]);
      destruct (mapZoom (chart w));
      destruct (mapNavButtons (chart w)) as [[|b l]|]; reflexivity.
  - intros u Hu.
    unfold isValid, simpleButtonNavigation, validate, simpleButtonValidate,
      chartButton, js_and, js_of_option.
    cbn [String.eqb Ascii.eqb Bool.eqb]. rewrite Hu, !lookup_empty.
    destruct (resetZoomButton (chart u)) as [[? [?|] ?]|];
      destruct (drillUpButton (chart u)) as [[? [?|] ?]|]; split; reflexivity.
Qed.

(** What one rebuild does to the document, for an allocated state. *)
Lemma rebuild_effect (w : World) :
  propsAllocated w = true ->
  exists w',
    updateProxyOverlays w = Some (tt, w') /\
    chart w' = chart w /\
    propsAllocated w' = true /\
    map proxyView <$> proxyGroupContent w' "resetZoomProxyGroup"
      = (fun b => [(b, langFormat (chart w) "accessibility.zoom.resetZoomButton"
                         None, (-1)%Z)]) <$> resetZoomButton (chart w) /\
    map proxyView <$> proxyGroupContent w' "drillUpProxyGroup"
      = (fun b => [(b, langFormat (chart w) "accessibility.drillUpButton"
                         (Some (getDrilldownBackText (chart w))), (-1)%Z)])
          <$> drillUpButton (chart w) /\
    (forall g, props (component w) !! "drillUpProxyGroup" = Some g \/
               props (component w) !! "resetZoomProxyGroup" = Some g ->
               groups (document w') !! g = None) /\
    (forall g, (g < nextId (document w))%nat ->
               props (component w) !! "drillUpProxyGroup" <> Some g ->
               props (component w) !! "resetZoomProxyGroup" <> Some g ->
               groups (document w') !! g = groups (document w) !! g).
Proof.
  intros Hall.
  assert (HoD : forall g, props (component w) !! "drillUpProxyGroup" = Some g ->
                          (g < nextId (document w))%nat).
  { intros g Hg. exact (propsAllocated_lt w _ g Hall Hg). }
  assert (HoR : forall g, props (component w) !! "resetZoomProxyGroup" = Some g ->
                          (g < nextId (document w))%nat).
  { intros g Hg. exact (propsAllocated_lt w _ g Hall Hg). }
  assert (Hps : map_Forall (fun _ g => g < nextId (document w))%nat
                  (props (component w))).
  { unfold propsAllocated in Hall. rewrite bool_decide_eq_true in Hall. exact Hall. }
  pose proof (updateProxyOverlays_run w) as Hrun.
  set (n := nextId (document w)) in *.
  destruct (resetZoomButton (chart w)) as [br|], (drillUpButton (chart w)) as [bd|];
    rewrite ?recreate_run in Hrun;
    (eexists; split; [exact Hrun|]);
    unfold proxyGroupContent, propsAllocated;
    cbn [chart component document listeners log nextId groups props
         focusedMapNavButtonIx];
    repeat (rewrite lookup_insert_eq || rewrite lookup_insert_ne by discriminate);
    repeat match goal with
           | |- context [props (component ?w) !! ?k] =>
               let o := fresh "old" in
               let E := fresh "Eold" in
               destruct (props (component w) !! k) as [o|] eqn:E
           end;
    repeat match goal with
           | Hlt : forall g : nat, Some ?x = Some g -> _ |- _ =>
               specialize (Hlt x eq_refl)
           | Hlt : forall g : nat, None = Some g -> _ |- _ => clear Hlt
           end;
    (split; [reflexivity|]);
    (split; [apply bool_decide_eq_true;
             repeat apply map_Forall_insert_2; try lia;
             (eapply map_Forall_impl; [eassumption|]); cbn; intros; lia|]);
    (split; [lookups|]); (split; [lookups|]);
    (split; [intros ? [?|?]; lookups|]);
    intros ? ? ? ?; lookups.
Qed.

(** X13. A second rebuild of the proxies right after a first one gives
    the same proxies for both roles (the same targets, labels and
    tabindex), in groups that are new: every group the component referred
    to after the first rebuild is detached after the second, and no other
    group of the document is touched. *)
Theorem rebuild_idempotent (w : World) :
  propsAllocated w = true ->
  exists w1 w2,
    updateProxyOverlays w = Some (tt, w1) /\
    updateProxyOverlays w1 = Some (tt, w2) /\
    (forall p, p ∈ groupProps ->
       map proxyView <$> proxyGroupContent w2 p
         = map proxyView <$> proxyGroupContent w1 p) /\
    (forall p g, p ∈ groupProps -> props (component w1) !! p = Some g ->
       groups (document w2) !! g = None) /\
    (forall g, (g < nextId (document w1))%nat ->
       (forall p, p ∈ groupProps -> props (component w1) !! p <> Some g) ->
       groups (document w2) !! g = groups (document w1) !! g).
Proof.
  intros Hall.
  destruct (rebuild_effect w Hall)
    as (w1 & Hr1 & Hc1 & Ha1 & Hv1r & Hv1d & _ & _).
  destruct (rebuild_effect w1 Ha1)
    as (w2 & Hr2 & Hc2 & Ha2 & Hv2r & Hv2d & Hgone & Hkeep).
  exists w1, w2. split; [exact Hr1|]. split; [exact Hr2|].
  unfold groupProps. repeat split.
  - intros p Hp. rewrite !elem_of_cons in Hp.
    destruct Hp as [->|[->|Hp]]; [| |by apply elem_of_nil in Hp].
    + rewrite Hv2r, Hv1r, Hc1. reflexivity.
    + rewrite Hv2d, Hv1d, Hc1. reflexivity.
  - intros p g Hp Hg. rewrite !elem_of_cons in Hp.
    destruct Hp as [->|[->|Hp]]; [| |by apply elem_of_nil in Hp];
      apply Hgone; auto.
  - intros g Hlt Hne. apply Hkeep; [exact Hlt| |];
      apply Hne; rewrite !elem_of_cons; auto.
Qed.

Lemma rebuild_idempotent_witness :
  exists w1 w2,
    updateProxyOverlays world0 = Some (tt, w1) /\
    updateProxyOverlays w1 = Some (tt, w2) /\
    (forall p, p ∈ groupProps ->
       map proxyView <$> proxyGroupContent w2 p
         = map proxyView <$> proxyGroupContent w1 p) /\
    (forall p g, p ∈ groupProps -> props (component w1) !! p = Some g ->
       groups (document w2) !! g = None) /\
    (forall g, (g < nextId (document w1))%nat ->
       (forall p, p ∈ groupProps -> props (component w1) !! p <> Some g) ->
       groups (document w2) !! g = groups (document w1) !! g).
Proof. apply (rebuild_idempotent world0). reflexivity. Defined.

(** X14. [recreateProxyButtonAndGroup], for a button property other than
    the group property: afterwards the group property refers to an
    attached group that holds exactly one proxy button, for the target
    and with the label given and tabindex -1; the button property refers
    to that proxy button; the group the property referred to before is
    detached; every other property and every other group is as before. *)
Theorem recreate_spec (w : World) (buttonEl : Button)
    (buttonProp groupProp label : string) :
  buttonProp <> groupProp ->
  (forall g0, props (component w) !! groupProp = Some g0 ->
              (g0 < nextId (document w))%nat) ->
  exists w' g b,
    recreateProxyButtonAndGroup buttonEl buttonProp groupProp label w
      = Some (tt, w') /\
    props (component w') !! groupProp = Some g /\
    props (component w') !! buttonProp = Some b /\
    groups (document w') !! g = Some [mkProxyButton b buttonEl label (-1)] /\
    (forall g0, props (component w) !! groupProp = Some g0 ->
                groups (document w') !! g0 = None) /\
    (forall p, p <> buttonProp -> p <> groupProp ->
               props (component w') !! p = props (component w) !! p) /\
    (forall g0, (g0 < nextId (document w))%nat ->
                props (component w) !! groupProp <> Some g0 ->
                groups (document w') !! g0 = groups (document w) !! g0).
Proof.
  intros Hne Hold. rewrite recreate_run. do 3 eexists.
  split; [reflexivity|].
  cbn [chart component document listeners log nextId groups props
       focusedMapNavButtonIx].
  split; [by rewrite lookup_insert_ne, lookup_insert_eq|].
  split; [by rewrite lookup_insert_eq|].
  split; [lookups|].
  split.
  { intros g0 Hg0. pose proof (Hold g0 Hg0). rewrite Hg0. lookups. }
  split.
  { intros p H1 H2. by rewrite !lookup_insert_ne. }
  intros g0 Hlt Hg0. lookups.
Qed.

Lemma recreate_spec_witness :
  exists w' g b,
    recreateProxyButtonAndGroup (mkButton 104 (Some 105) 0)
      "resetZoomProxyButton" "resetZoomProxyGroup" "Reset zoom" world0
      = Some (tt, w') /\
    props (component w') !! "resetZoomProxyGroup" = Some g /\
    props (component w') !! "resetZoomProxyButton" = Some b /\
    groups (document w') !! g
      = Some [mkProxyButton b (mkButton 104 (Some 105) 0) "Reset zoom" (-1)] /\
    (forall g0, props (component world0) !! "resetZoomProxyGroup" = Some g0 ->
                groups (document w') !! g0 = None) /\
    (forall p, p <> "resetZoomProxyButton" -> p <> "resetZoomProxyGroup" ->
               props (component w') !! p = props (component world0) !! p) /\
    (forall g0, (g0 < nextId (document world0))%nat ->
                props (component world0) !! "resetZoomProxyGroup" <> Some g0 ->
                groups (document w') !! g0 = groups (document world0) !! g0).
Proof.
  apply (recreate_spec world0 (mkButton 104 (Some 105) 0)
           "resetZoomProxyButton" "resetZoomProxyGroup" "Reset zoom").
  - discriminate.
  - intros g0 Hg0. vm_compute in Hg0. discriminate Hg0.
Defined.

(** ** Attributes of the map buttons *)

(** The calls made for the entry at an index of a list walked with two
    calls per entry. *)
Lemma concat_imap_two {A B} (f g : nat -> A -> B) (l : list A) (i : nat) (x : A) :
  l !! i = Some x ->
  concat (imap (fun i x => [f i x; g i x]) l) !! (2 * i)%nat = Some (f i x) /\
  concat (imap (fun i x => [f i x; g i x]) l) !! (2 * i + 1)%nat = Some (g i x).
Proof.
  revert f g i. induction l as [|y l IH]; intros f g i Hi; [discriminate|].
  destruct i as [|i].
  - inversion Hi; subst. split; reflexivity.
  - cbn in Hi. cbn [imap concat app].
    replace (2 * S i)%nat with (S (S (2 * i))) by lia.
    replace (S (S (2 * i)) + 1)%nat with (S (S (2 * i + 1))) by lia.
    cbn [lookup list_lookup].
    exact (IH (fun i => f (S i)) (fun i => g (S i)) i Hi).
Qed.

Lemma length_concat_imap_two {A B} (f g : nat -> A -> B) (l : list A) :
  length (concat (imap (fun i x => [f i x; g i x]) l)) = (2 * length l)%nat.
Proof.
  revert f g. induction l as [|y l IH]; intros f g; [reflexivity|].
  pose proof (IH (fun i => f (S i)) (fun i => g (S i))) as H.
  change (S (S (length (concat
                  (imap (fun i x => [f (S i) x; g (S i) x]) l))))
          = (2 * S (length l))%nat).
  rewrite H. lia.
Qed.

(** X15. [onChartUpdate] makes no call when the chart has no map buttons.
    Otherwise it makes two calls per button, in the order of the buttons:
    it unhides the button's element from screen readers, then sets on it
    tabindex -1, the role [button] and a label, which is the zoom-in
    label for the first button and the zoom-out label for every other. *)
Theorem onChartUpdate_calls (c : Chart) :
  match mapNavButtons c with
  | None => onChartUpdate c = []
  | Some l =>
      length (onChartUpdate c) = (2 * length l)%nat /\
      forall i b, l !! i = Some b ->
        onChartUpdate c !! (2 * i)%nat
          = Some (CUnhideElementFromScreenReaders (element b)) /\
        onChartUpdate c !! (2 * i + 1)%nat
          = Some (CSetElAttrs (element b)
                    (mkButtonAttrs (-1) "button"
                       (langFormat c
                          (match i with
                           | O => "accessibility.zoom.mapZoomIn"
                           | S _ => "accessibility.zoom.mapZoomOut"
                           end) None)))
  end.
Proof.
  unfold onChartUpdate, setMapNavButtonAttrs.
  destruct (mapNavButtons c) as [l|]; [|reflexivity].
  split; [apply length_concat_imap_two|].
  intros i b Hi.
  destruct (concat_imap_two
              (fun _ button => CUnhideElementFromScreenReaders (element button))
              (fun i button =>
                 CSetElAttrs (element button)
                   (mkButtonAttrs (-1) "button"
                      (langFormat c
                         ("accessibility.zoom.mapZoom" +:+
                          (if (i =? 0)%nat then "In" else "Out")) None)))
              l i b Hi) as [H1 H2].
  split; [exact H1|]. rewrite H2. destruct i; reflexivity.
Qed.

End ComponentFurther.
